(** * Prospecta IA: campaign front end, lead pipeline and send log

    A shallow embedding of the parts of the repository that the
    specification's testable properties talk about:

    - [JS]: the JavaScript built-ins the components call
      ([String.prototype.replace] with a string and with a global regular
      expression of a literal, [parseInt], [Number], [Math.ceil] of a
      quotient, the truthiness of strings and numbers);
    - [ManualProspecting] and [ReactivationCampaign]: the two campaign
      components ([formatMessage], the delay field, the time estimate);
    - [AppContext]: the progress poll of [startCampaign];
    - [Kanban]: the move buttons of a lead card and [moveLeadStatus];
    - [Pipeline]: [handleWhatsApp];
    - [ReactivationLog]: the two SQL definitions of [reactivation_log];
    - [SafetyFilter] and [Dispatcher]: the safety filter and the finish
      estimate of the server, which are not part of the sources and are
      modelled from the specification.

    Strings are sequences of bytes ([string] of the Standard Library).  The
    patterns searched by the sources are ASCII literals, so matching on the
    UTF-8 bytes of a text finds the same occurrences as matching on its
    UTF-16 code units.  Numbers that the sources keep integral are in [Z]. *)

From Stdlib Require Import String Ascii List ZArith Lia Bool Arith.
Import ListNotations.

Local Open Scope string_scope.

(* ================================================================== *)
(** * JavaScript built-ins *)
(* ================================================================== *)

Module JS.

(** [s.startsWith(p)] *)
Fixpoint startsWith (s p : string) {struct p} : bool :=
  match p with
  | EmptyString => true
  | String c p' =>
      match s with
      | EmptyString => false
      | String d s' => Ascii.eqb c d && startsWith s' p'
      end
  end.

(** [s.slice(n)] for [n] a length. *)
Fixpoint drop (n : nat) (s : string) : string :=
  match n with
  | O => s
  | S k => match s with
           | EmptyString => EmptyString
           | String _ s' => drop k s'
           end
  end.

(** The first occurrence of [p] in [s]: the text before it and the text
    after it ([s.indexOf(p)] as a split). *)
Fixpoint split_first (p s : string) : option (string * string) :=
  if startsWith s p then Some (EmptyString, drop (String.length p) s)
  else
    match s with
    | EmptyString => None
    | String c s' =>
        match split_first p s' with
        | Some (b, a) => Some (String c b, a)
        | None => None
        end
    end.

(** [GetSubstitution] of ECMA-262 for a match without capture groups:
    [$$] is a dollar, [$&] the matched text, [$`] the text before the
    match, [$'] the text after it; any other dollar stands for itself. *)
Fixpoint GetSubstitution (matched before after replacement : string) : string :=
  match replacement with
  | EmptyString => EmptyString
  | String "$" (String "$" r) =>
      String "$" (GetSubstitution matched before after r)
  | String "$" (String "&" r) =>
      matched ++ GetSubstitution matched before after r
  | String "$" (String "`" r) =>
      before ++ GetSubstitution matched before after r
  | String "$" (String "'" r) =>
      after ++ GetSubstitution matched before after r
  | String c r => String c (GetSubstitution matched before after r)
  end.

(** [s.replace(p, r)] with a string pattern: the first occurrence only. *)
Definition replace (s p r : string) : string :=
  match split_first p s with
  | None => s
  | Some (b, a) => b ++ GetSubstitution p b a r ++ a
  end.

(** [s.replace(/p/g, r)] for a regular expression that matches the
    literal [p]: every occurrence, left to right, without overlap.
    [seen] is the part of the subject before [s]; the fuel bounds the
    number of matches. *)
Fixpoint replaceAll_from (fuel : nat) (p r seen s : string) : string :=
  match fuel with
  | O => s
  | S f =>
      match split_first p s with
      | None => s
      | Some (b, a) =>
          b ++ GetSubstitution p (seen ++ b) a r
            ++ replaceAll_from f p r (seen ++ b ++ p) a
      end
  end.

Definition replaceAll (s p r : string) : string :=
  replaceAll_from (String.length s) p r EmptyString s.

(** [s.includes(p)] *)
Definition includes (s p : string) : bool :=
  match split_first p s with
  | Some _ => true
  | None => false
  end.

(** [s.includes(c)] for a single character. *)
Fixpoint includesChar (s : string) (c : ascii) : bool :=
  match s with
  | EmptyString => false
  | String d s' => Ascii.eqb c d || includesChar s' c
  end.

(** [v || d] for a string that may be undefined: the empty string is
    falsy. *)
Definition or_string (v : option string) (d : string) : string :=
  match v with
  | Some s => if String.eqb s EmptyString then d else s
  | None => d
  end.

(** [ToString] of a string that may be undefined. *)
Definition ToString (v : option string) : string :=
  match v with
  | Some s => s
  | None => "undefined"
  end.

(** The truthiness of a string that may be undefined. *)
Definition truthy (v : option string) : bool :=
  match v with
  | Some s => negb (String.eqb s EmptyString)
  | None => false
  end.

Definition isDigit (c : ascii) : bool :=
  let n := nat_of_ascii c in (48 <=? n)%nat && (n <=? 57)%nat.

(** [s.replace(/\D/g, '')] *)
Fixpoint stripNonDigits (s : string) : string :=
  match s with
  | EmptyString => EmptyString
  | String c s' =>
      if isDigit c then String c (stripNonDigits s') else stripNonDigits s'
  end.

Definition isWhiteSpace (c : ascii) : bool :=
  let n := nat_of_ascii c in
  ((9 <=? n)%nat && (n <=? 13)%nat) || (n =? 32)%nat.

Fixpoint trimStart (s : string) : string :=
  match s with
  | String c s' => if isWhiteSpace c then trimStart s' else s
  | EmptyString => EmptyString
  end.

Definition digitValue (c : ascii) : Z := (Z.of_nat (nat_of_ascii c) - 48)%Z.

(** The longest prefix of decimal digits and the rest. *)
Fixpoint spanDigits (s : string) : string * string :=
  match s with
  | String c s' =>
      if isDigit c then let (d, r) := spanDigits s' in (String c d, r)
      else (EmptyString, s)
  | EmptyString => (EmptyString, EmptyString)
  end.

Fixpoint decimalValue (acc : Z) (ds : string) : Z :=
  match ds with
  | EmptyString => acc
  | String c ds' => decimalValue (10 * acc + digitValue c)%Z ds'
  end.

Definition hexDigit (c : ascii) : option Z :=
  let n := nat_of_ascii c in
  if isDigit c then Some (Z.of_nat n - 48)%Z
  else if (97 <=? n)%nat && (n <=? 102)%nat then Some (Z.of_nat n - 87)%Z
  else if (65 <=? n)%nat && (n <=? 70)%nat then Some (Z.of_nat n - 55)%Z
  else None.

(** The value of the longest prefix of hexadecimal digits; [None] when
    there is none. *)
Fixpoint hexValue (acc : option Z) (s : string) : option Z :=
  match s with
  | String c s' =>
      match hexDigit c with
      | Some d =>
          hexValue (Some (16 * match acc with Some a => a | None => 0 end + d)%Z) s'
      | None => acc
      end
  | EmptyString => acc
  end.

(** [parseInt(s)] without a radix: leading ASCII white space, a sign, then
    hexadecimal digits after [0x] or decimal digits; [None] is NaN.  The
    result is the mathematical integer (the rounding to a double of a
    value beyond 2^53 keeps its sign and stays beyond 2^53). *)
Definition parseInt (s : string) : option Z :=
  let t := trimStart s in
  let (sign, u) :=
    match t with
    | String "-" r => ((-1)%Z, r)
    | String "+" r => (1%Z, r)
    | _ => (1%Z, t)
    end in
  match u with
  | String "0" (String "x" h) | String "0" (String "X" h) =>
      option_map (Z.mul sign) (hexValue None h)
  | _ =>
      let (ds, _) := spanDigits u in
      match ds with
      | EmptyString => None
      | _ => Some (sign * decimalValue 0 ds)%Z
      end
  end.

(** [parseInt(s) || d]: NaN and zero are falsy. *)
Definition or_number (v : option Z) (d : Z) : Z :=
  match v with
  | Some z => if (z =? 0)%Z then d else z
  | None => d
  end.

(** The value of [Number(s)] as far as this development evaluates it: an
    integer, or any other value (NaN, or a number written with a
    fraction, an exponent or a radix prefix), which is left unevaluated. *)
Inductive number : Type :=
| Int (z : Z)
| NotEvaluated.

Fixpoint allDigits (s : string) : bool :=
  match s with
  | EmptyString => true
  | String c s' => isDigit c && allDigits s'
  end.

(** [Number(s)] on the text of a number field: the empty text is 0, an
    optionally signed run of decimal digits is its value, and no other
    text is evaluated. *)
Definition Number (s : string) : number :=
  match s with
  | EmptyString => Int 0
  | String "-" (String c ds) =>
      if allDigits (String c ds) then Int (- decimalValue 0 (String c ds))%Z
      else NotEvaluated
  | String "+" (String c ds) =>
      if allDigits (String c ds) then Int (decimalValue 0 (String c ds))
      else NotEvaluated
  | _ => if allDigits s then Int (decimalValue 0 s) else NotEvaluated
  end.

(** [Math.ceil(a / b)] for integers [a] and [b > 0]. *)
Definition ceilDiv (a b : Z) : Z := (- ((- a) / b))%Z.


(** ASCII [toLowerCase]. *)
Definition toLowerChar (c : ascii) : ascii :=
  let n := nat_of_ascii c in
  if (65 <=? n)%nat && (n <=? 90)%nat then ascii_of_nat (n + 32) else c.

Fixpoint toLowerCase (s : string) : string :=
  match s with
  | EmptyString => EmptyString
  | String c s' => String (toLowerChar c) (toLowerCase s')
  end.

(** [s.slice(0, n)] *)
Fixpoint take (n : nat) (s : string) : string :=
  match n with
  | O => EmptyString
  | S k => match s with
           | EmptyString => EmptyString
           | String c s' => String c (take k s')
           end
  end.

(** [s.slice(-n)] for [n > 0]: the last [n] characters, or all of [s]
    when it is shorter. *)
Definition takeLast (n : nat) (s : string) : string :=
  drop (String.length s - n) s.

(** [s.endsWith(p)] *)
Definition endsWith (s p : string) : bool :=
  (String.length p <=? String.length s)%nat
  && String.eqb (drop (String.length s - String.length p) s) p.

Definition digitChar (d : Z) : ascii := ascii_of_nat (48 + Z.to_nat d).

(** The decimal digits of [n >= 0], most significant first; the fuel
    bounds their number. *)
Fixpoint digitsOf (fuel : nat) (n : Z) : string :=
  match fuel with
  | O => EmptyString
  | S f =>
      (if (n <? 10)%Z then EmptyString else digitsOf f (n / 10)%Z)
      ++ String (digitChar (n mod 10)%Z) EmptyString
  end.

(** [String(z)], [z.toString()] and [`${z}`] for an integer. *)
Definition toString (z : Z) : string :=
  if (z <? 0)%Z then "-" ++ digitsOf (S (Z.to_nat (Z.log2 (- z)))) (- z)%Z
  else digitsOf (S (Z.to_nat (Z.log2 z))) z.

Fixpoint repeatChar (n : nat) (c : ascii) : string :=
  match n with
  | O => EmptyString
  | S k => String c (repeatChar k c)
  end.

(** [s.padStart(n, c)] with a fill of one character. *)
Definition padStart (s : string) (n : nat) (c : ascii) : string :=
  repeatChar (n - String.length s) c ++ s.

End JS.

(* ================================================================== *)
(** * components/ManualProspecting.tsx *)
(* ================================================================== *)

Module ManualProspecting.

(** [interface Lead].  The rows are JSON of the server, so at run time a
    field can be absent whatever the interface says: the three fields
    that [formatMessage] reads carry that. *)
Record Lead : Type := mkLead {
  name : option string;
  phone : string;
  company : option string;
  notes : option string;
  original_status : option string
}.

Definition formatMessage (template : string) (lead : Lead) : string :=
  let t1 := JS.replaceAll template "[NAME]" (JS.or_string (name lead) "Amigo") in
  let t2 := JS.replaceAll t1 "[NOTES]" (JS.or_string (notes lead) "crescer o negocio") in
  let t3 := JS.replaceAll t2 "[COMPANY]" (JS.or_string (company lead) "") in
  let t4 := JS.replaceAll t3 "{name}" (JS.or_string (name lead) "Amigo") in
  let t5 := JS.replaceAll t4 "{notes}" (JS.or_string (notes lead) "crescer o negocio") in
  JS.replaceAll t5 "{company}" (JS.or_string (company lead) "").

(** The six placeholders that [formatMessage] looks for. *)
Definition placeholders : list string :=
  ["[NAME]"; "[NOTES]"; "[COMPANY]"; "{name}"; "{notes}"; "{company}"].

Definition hasPlaceholder (text : string) : bool :=
  existsb (JS.includes text) placeholders.

(** What [formatMessage] puts in place of each placeholder. *)
Definition substitutions (lead : Lead) : list (string * string) :=
  [ ("[NAME]", JS.or_string (name lead) "Amigo");
    ("[NOTES]", JS.or_string (notes lead) "crescer o negocio");
    ("[COMPANY]", JS.or_string (company lead) "");
    ("{name}", JS.or_string (name lead) "Amigo");
    ("{notes}", JS.or_string (notes lead) "crescer o negocio");
    ("{company}", JS.or_string (company lead) "") ].

(** A text without the characters that open a placeholder. *)
Definition plain (text : string) : bool :=
  negb (JS.includesChar text "[") && negb (JS.includesChar text "{").

Inductive Mode : Type := spin | custom.

Record PreviewData : Type := mkPreview {
  total_leads : Z;
  preview : list Lead;
  all_leads : list Lead;
  default_template : option string
}.

(** The state of the component that the send and the estimate read. *)
Record State : Type := mkState {
  mode : option Mode;
  previewData : option PreviewData;
  messageTemplate : string;
  delaySeconds : JS.number
}.

(** [useState] initial values. *)
Definition initial : State :=
  {| mode := None; previewData := None; messageTemplate := "";
     delaySeconds := JS.Int 45 |}.

Inductive Event : Type :=
| SelectMode (m : Mode)
| FileLoaded (data : PreviewData)
| EditTemplate (text : string)
| ChangeDelay (value : string)
| ResetCampaign.

(** [onChange={e => setDelaySeconds(Number(e.target.value))}], the
    handler of both delay fields of this component. *)
Definition onChangeDelay (value : string) (st : State) : State :=
  {| mode := mode st; previewData := previewData st;
     messageTemplate := messageTemplate st;
     delaySeconds := JS.Number value |}.

(** [handleFile] on a successful response. *)
Definition onFileLoaded (data : PreviewData) (st : State) : State :=
  {| mode := mode st; previewData := Some data;
     messageTemplate :=
       match mode st, JS.truthy (default_template data) with
       | Some custom, true => JS.ToString (default_template data)
       | _, _ => messageTemplate st
       end;
     delaySeconds := delaySeconds st |}.

(** [reset] leaves the delay as it is. *)
Definition reset (st : State) : State :=
  {| mode := None; previewData := None; messageTemplate := "";
     delaySeconds := delaySeconds st |}.

Definition step (st : State) (e : Event) : State :=
  match e with
  | SelectMode m =>
      {| mode := Some m; previewData := previewData st;
         messageTemplate := messageTemplate st;
         delaySeconds := delaySeconds st |}
  | FileLoaded data => onFileLoaded data st
  | EditTemplate text =>
      {| mode := mode st; previewData := previewData st;
         messageTemplate := text; delaySeconds := delaySeconds st |}
  | ChangeDelay value => onChangeDelay value st
  | ResetCampaign => reset st
  end.

Definition run (events : list Event) : State := fold_left step events initial.

(** The request that [handleSend] passes to the API client. *)
Inductive Request : Type :=
| sendColdProspecting (leads : list Lead) (delay : JS.number)
| sendReactivation (leads : list Lead) (template : string) (delay : JS.number).

Definition handleSend (st : State) : option Request :=
  match previewData st with
  | None => None
  | Some data =>
      match mode st with
      | Some spin => Some (sendColdProspecting (all_leads data) (delaySeconds st))
      | _ => Some (sendReactivation (all_leads data) (messageTemplate st)
                     (delaySeconds st))
      end
  end.

Definition requestDelay (r : Request) : JS.number :=
  match r with
  | sendColdProspecting _ d => d
  | sendReactivation _ _ d => d
  end.

(** The preview cards: [previewData.total_leads * 2] messages and
    [Math.ceil((previewData.total_leads * delaySeconds) / 60)] minutes,
    in either mode. *)
Definition previewMessages (data : PreviewData) : Z := (total_leads data * 2)%Z.


End ManualProspecting.

(* ================================================================== *)
(** * components/ReactivationCampaign.tsx *)
(* ================================================================== *)

Module ReactivationCampaign.

(** [interface ReactivationLead]: [name] and [notes] are required
    strings, [company] is optional. *)
Record ReactivationLead : Type := mkLead {
  name : string;
  phone : string;
  notes : string;
  company : option string;
  original_status : option string
}.

Definition formatMessage (template : string) (lead : ReactivationLead) : string :=
  let t1 := JS.replace template "[NAME]" (name lead) in
  let t2 := JS.replace t1 "[NOTES]" (notes lead) in
  let t3 := JS.replace t2 "[COMPANY]" (JS.or_string (company lead) "") in
  let t4 := JS.replace t3 "{name}" (name lead) in
  let t5 := JS.replace t4 "{notes}" (notes lead) in
  JS.replace t5 "{company}" (JS.or_string (company lead) "").

(** A [ReactivationLead] read through [interface Lead] of
    ManualProspecting.tsx: the same object, with both required fields
    present. *)
Definition asLead (l : ReactivationLead) : ManualProspecting.Lead :=
  ManualProspecting.mkLead (Some (name l)) (phone l) (company l)
    (Some (notes l)) (original_status l).

Record PreviewData : Type := mkPreview {
  total_leads : Z;
  preview : list ReactivationLead;
  all_leads : list ReactivationLead;
  default_template : string
}.

Record State : Type := mkState {
  previewData : option PreviewData;
  messageTemplate : string;
  delaySeconds : Z
}.

Definition initial : State :=
  {| previewData := None; messageTemplate := ""; delaySeconds := 45 |}.

Inductive Event : Type :=
| FileLoaded (data : PreviewData)
| EditTemplate (text : string)
| ChangeDelay (value : string)
| ResetCampaign.

(** [setDelaySeconds(Math.max(30, Math.min(120,
    parseInt(e.target.value) || 45)))] *)
Definition onChangeDelay (value : string) (st : State) : State :=
  {| previewData := previewData st; messageTemplate := messageTemplate st;
     delaySeconds :=
       Z.max 30 (Z.min 120 (JS.or_number (JS.parseInt value) 45)) |}.

Definition step (st : State) (e : Event) : State :=
  match e with
  | FileLoaded data =>
      {| previewData := Some data;
         messageTemplate := default_template data;
         delaySeconds := delaySeconds st |}
  | EditTemplate text =>
      {| previewData := previewData st; messageTemplate := text;
         delaySeconds := delaySeconds st |}
  | ChangeDelay value => onChangeDelay value st
  | ResetCampaign =>
      {| previewData := None; messageTemplate := "";
         delaySeconds := delaySeconds st |}
  end.

Definition run (events : list Event) : State := fold_left step events initial.

(** [api.sendReactivation(all_leads, messageTemplate, delaySeconds)] *)
Record Request : Type := sendReactivation {
  leads : list ReactivationLead;
  template : string;
  delay : Z
}.

Definition handleSendCampaign (st : State) : option Request :=
  match previewData st with
  | None => None
  | Some data =>
      Some (sendReactivation (all_leads data) (messageTemplate st) (delaySeconds st))
  end.

(** One message per lead, and
    [Math.ceil((previewData.total_leads * delaySeconds) / 60)] minutes. *)
Definition previewMessages (data : PreviewData) : Z := total_leads data.

Definition estimatedMinutes (data : PreviewData) (delay : Z) : Z :=
  JS.ceilDiv (total_leads data * delay) 60.

Definition validExtensions : list string := [".csv"; ".xlsx"; ".xls"].

(** [validExtensions.some(ext => file.name.toLowerCase().endsWith(ext))] *)
Definition hasValidExtension (fileName : string) : bool :=
  existsb (fun ext => JS.endsWith (JS.toLowerCase fileName) ext) validExtensions.

(** What [handleFileUpload] does with a file: it sets an error, or it
    sends the file to [api.previewCSV]. *)
Inductive Upload : Type :=
| Rejected (error : string)
| Previewed (fileName : string).

Definition handleFileUpload (fileName : string) : Upload :=
  if negb (hasValidExtension fileName)
  then Rejected "Por favor, selecione um arquivo CSV ou Excel (.xlsx)"
  else Previewed fileName.

End ReactivationCampaign.


(* ================================================================== *)
(** * contexts/AppContext.tsx: the progress poll of [startCampaign] *)
(* ================================================================== *)

Module AppContext.

Record CampaignProgress : Type := mkProgress {
  job_id : Z;
  status : string;
  progresso : Z;
  leads_encontrados : Z;
  leads_qualificados : Z;
  mensagem : option string
}.

(** [ApiResponse<T>]: [data] or [error]. *)
Record ApiResponse (T : Type) : Type := mkResponse {
  data : option T;
  error : option string
}.
Arguments mkResponse {T} _ _.
Arguments data {T} _.
Arguments error {T} _.

(** The part of the provider's state that the poll writes;
    [refreshes] counts the calls of [refreshLeads]. *)
Record State : Type := mkState {
  isProspecting : bool;
  currentCampaign : option CampaignProgress;
  lastError : option string;
  refreshes : nat
}.

(** The state in which the first poll runs: [startCampaign] has set
    [isProspecting] and a placeholder campaign. *)
Definition started : State :=
  {| isProspecting := true;
     currentCampaign :=
       Some (mkProgress 0 "running" 0 0 0 (Some "Iniciando..."));
     lastError := None; refreshes := 0 |}.

(** One run of [poll] on the answer of [api.getCampaignStatus(jobId)]:
    the new state and the delay of the [setTimeout(poll, ...)] it arms,
    if it arms one. *)
Definition poll (statusResult : ApiResponse CampaignProgress) (st : State)
  : State * option Z :=
  match data statusResult with
  | Some d =>
      if String.eqb (status d) "completed" then
        ({| isProspecting := false; currentCampaign := Some d;
            lastError := lastError st; refreshes := S (refreshes st) |}, None)
      else if String.eqb (status d) "failed" then
        ({| isProspecting := false; currentCampaign := Some d;
            lastError := Some (JS.or_string (mensagem d) "Erro na prospeccao");
            refreshes := refreshes st |}, None)
      else
        ({| isProspecting := isProspecting st; currentCampaign := Some d;
            lastError := lastError st; refreshes := refreshes st |},
         Some 1000%Z)
  | None => (st, None)
  end.

(** The loop against the successive answers of the server: the final
    state, the number of status requests made, and whether a timer is
    still armed when the answers run out. *)
Fixpoint pollLoop (answers : list (ApiResponse CampaignProgress)) (st : State)
  : State * nat * bool :=
  match answers with
  | [] => (st, O, true)
  | a :: rest =>
      match poll a st with
      | (st', Some _) =>
          let '(st'', n, armed) := pollLoop rest st' in (st'', S n, armed)
      | (st', None) => (st', 1%nat, false)
      end
  end.

Definition answer (s : string) : ApiResponse CampaignProgress :=
  mkResponse (Some (mkProgress 1 s 0 0 0 None)) None.

(** The answer of [api.startCampaign]. *)
Record StartResponse : Type := mkStart {
  start_job_id : Z;
  start_status : string
}.

(** What [startCampaign] sets before it asks the server. *)
Definition begin (st : State) : State :=
  {| isProspecting := true;
     currentCampaign :=
       Some (mkProgress 0 "running" 0 0 0 (Some "Iniciando..."));
     lastError := lastError st; refreshes := refreshes st |}.

(** [startCampaign] against the answer of the server and the answers to
    the status requests that follow.  [None] is the exception of
    [result.data!.job_id] on an answer without data and without error. *)
Definition startCampaign (result : ApiResponse StartResponse)
    (answers : list (ApiResponse CampaignProgress)) (st : State)
  : option (State * nat * bool) :=
  if JS.truthy (error result) then
    Some ({| isProspecting := false; currentCampaign := None;
             lastError := error result; refreshes := refreshes st |},
          O, false)
  else
    match data result with
    | Some _ => Some (pollLoop answers (begin st))
    | None => None
    end.

End AppContext.

(* ================================================================== *)
(** * app/kanban/page.tsx and lib/api.ts: moving a lead *)
(* ================================================================== *)

Module Kanban.

Record KanbanLead : Type := mkLead {
  phone : string;
  name : string;
  company : string;
  status : string;
  qualification_progress : Z
}.

(** The keys of [COLUMNS]. *)
Definition COLUMNS : list string :=
  ["novo"; "em_conversa"; "qualificado"; "reuniao_agendada"; "curioso";
   "perdido"].

(** [api.moveLeadStatus(phone, newStatus)]: a POST to
    [/api/ai-responder/kanban/move] with the two query parameters. *)
Record MoveRequest : Type := moveLeadStatus {
  req_phone : string;
  new_status : string
}.

(** [handleMove] *)
Definition handleMove (phone newStatus : string) : MoveRequest :=
  moveLeadStatus phone newStatus.

(** The buttons under "Move actions" of an expanded [LeadCard], each
    with the request its click sends. *)
Definition moveActions (lead : KanbanLead) : list MoveRequest :=
  (if negb (String.eqb (status lead) "reuniao_agendada")
   then [handleMove (phone lead) "reuniao_agendada"] else [])
  ++
  (if negb (String.eqb (status lead) "perdido")
      && negb (String.eqb (status lead) "curioso")
   then [handleMove (phone lead) "perdido"] else []).

(** A move to [target] is offered on the card. *)
Definition offers (lead : KanbanLead) (target : string) : bool :=
  existsb (fun r => String.eqb (new_status r) target) (moveActions lead).

(** [timeAgo] of a lead card: [now] is [Date.now()] and [getTime] gives
    [new Date(dateStr).getTime()] in milliseconds, [None] for a text that
    is no date (NaN, which fails both comparisons). *)
Definition timeAgo (now : Z) (getTime : string -> option Z)
    (dateStr : option string) : string :=
  match dateStr with
  | None => ""
  | Some d =>
      if negb (JS.truthy (Some d)) then ""
      else
        match getTime d with
        | None => "NaNd"
        | Some t =>
            let diff := (now - t)%Z in
            let mins := (diff / 60000)%Z in
            if (mins <? 60)%Z then JS.toString mins ++ "min"
            else
              let hours := (mins / 60)%Z in
              if (hours <? 24)%Z then JS.toString hours ++ "h"
              else JS.toString (hours / 24)%Z ++ "d"
        end
  end.

(** [ProgressBar]: the dots, those that are green, and the label. *)
Definition dots : list Z := [1; 2; 3; 4]%Z.

Definition greenDots (progress : Z) : list Z :=
  filter (fun d => (d <=? progress)%Z) dots.

Definition progressLabel (progress : Z) : string :=
  JS.toString progress ++ "/4".

End Kanban.

(* ================================================================== *)
(** * app/pipeline/page.tsx: [handleWhatsApp] *)
(* ================================================================== *)

Module Pipeline.

(** [Lead] of lib/api.ts, with the fields the page reads. *)
Record Lead : Type := mkLead {
  id : Z;
  nome_empresa : string;
  telefone : option string
}.

(** The number that [handleWhatsApp] builds from a telephone. *)
Definition whatsAppPhone (telefone : string) : string :=
  let phone := JS.stripNonDigits telefone in
  if negb (JS.startsWith phone "55") then "55" ++ phone else phone.

(** The address that [handleWhatsApp] opens in a new tab, if any. *)
Definition handleWhatsApp (lead : Lead) : option string :=
  match telefone lead with
  | Some t =>
      if JS.truthy (Some t) then Some ("https://wa.me/" ++ whatsAppPhone t)
      else None
  | None => None
  end.

(** [type UIStatus] *)
Inductive UIStatus : Type := novos | contatado | interesse | agendado.

Definition STATUS_MAP (s : UIStatus) : list string :=
  match s with
  | novos => ["novo"; "contato_site"]
  | contatado => ["contatado"; "follow_up"]
  | interesse => ["interesse"; "proposta"]
  | agendado => ["agendado"; "fechado"]
  end.

(** The filters of [api.getLeads]; [None] is an undefined status. *)
Record LeadsQuery : Type := getLeads {
  q_status : option string;
  q_limit : Z;
  q_order_by : string;
  q_order_desc : string
}.

(** The request of [loadLeads]: [status: statuses[0]]. *)
Definition loadLeads (selectedStatus : UIStatus) : LeadsQuery :=
  {| q_status := hd_error (STATUS_MAP selectedStatus); q_limit := 50;
     q_order_by := "score"; q_order_desc := "true" |}.

(** [handleStatusChange]: the call of [updateLeadStatus] and the list
    that [setLeads] leaves. *)
Definition handleStatusChange (lead : Lead) (newStatus : string)
    (leads : list Lead) : (Z * string) * list Lead :=
  ((id lead, newStatus), filter (fun l => negb (id l =? id lead)%Z) leads).

End Pipeline.

(* ================================================================== *)
(** * database: the table [reactivation_log] *)
(* ================================================================== *)

Module ReactivationLog.

(** A row, with the columns that constraints and defaults mention. *)
Record Row : Type := mkRow {
  id : nat;
  phone : string;
  campaign_id : option string;
  status : string;
  error : option string
}.

(** What a [CREATE TABLE] says about those columns. *)
Record TableDef : Type := mkDef {
  campaign_id_not_null : bool;
  unique_phone_campaign : bool;
  status_default : string
}.

(** database/migration_reactivation_log.sql: [campaign_id TEXT NOT NULL],
    [status TEXT DEFAULT 'queued'], [UNIQUE(phone, campaign_id)]. *)
Definition migration_reactivation_log : TableDef :=
  {| campaign_id_not_null := true; unique_phone_campaign := true;
     status_default := "queued" |}.

(** The script that creates [reactivation_leads] and "also ensures
    reactivation_log exists": [campaign_id VARCHAR(100)],
    [status VARCHAR(50) DEFAULT 'sent'], no [UNIQUE]. *)
Definition reactivation_leads_script : TableDef :=
  {| campaign_id_not_null := false; unique_phone_campaign := false;
     status_default := "sent" |}.

Record Table : Type := mkTable {
  def : TableDef;
  next_id : nat;
  rows : list Row
}.

(** The database as far as this table goes: [None] before any script. *)
Definition Database : Type := option Table.

(** [CREATE TABLE IF NOT EXISTS reactivation_log (...)] *)
Definition create_table_if_not_exists (d : TableDef) (db : Database) : Database :=
  match db with
  | Some t => Some t
  | None => Some {| def := d; next_id := 1; rows := [] |}
  end.

Definition run_scripts (scripts : list TableDef) : Database :=
  fold_left (fun db d => create_table_if_not_exists d db) scripts None.

(** The values of an [INSERT]; [None] is NULL, or the default for
    [status]. *)
Record Values : Type := mkValues {
  v_phone : option string;
  v_campaign_id : option string;
  v_status : option string
}.

(** Two rows clash under [UNIQUE(phone, campaign_id)] when both columns
    are equal and not NULL. *)
Definition clashes (p : string) (c : option string) (r : Row) : bool :=
  String.eqb (phone r) p &&
  match c, campaign_id r with
  | Some x, Some y => String.eqb x y
  | _, _ => false
  end.

(** [INSERT INTO reactivation_log ...]: [None] when a constraint rejects
    the row. *)
Definition insert (v : Values) (t : Table) : option Table :=
  match v_phone v with
  | None => None
  | Some p =>
      match v_campaign_id v, campaign_id_not_null (def t) with
      | None, true => None
      | c, _ =>
          if unique_phone_campaign (def t) && existsb (clashes p c) (rows t)
          then None
          else
            Some {| def := def t; next_id := S (next_id t);
                    rows := rows t ++
                      [ {| id := next_id t; phone := p; campaign_id := c;
                           status := match v_status v with
                                     | Some s => s
                                     | None => status_default (def t)
                                     end;
                           error := None |} ] |}
      end
  end.

(** A run of inserts; a rejected insert leaves the table as it is. *)
Definition insert_all (vs : list Values) (t : Table) : Table :=
  fold_left (fun t v => match insert v t with Some t' => t' | None => t end) vs t.

(** The rows recorded for a (phone, campaign) pair. *)
Definition records (p c : string) (t : Table) : list Row :=
  filter (clashes p (Some c)) (rows t).

End ReactivationLog.

(* ================================================================== *)
(** * The safety filter and the dispatcher's estimate (server side) *)
(* ================================================================== *)

Module SafetyFilter.

(** Modelled from the spec: the raw lead of section 3; the server code
    that reads uploaded rows is not among the sources. *)
Record Lead : Type := mkLead {
  name : string;
  phone : string;
  company : option string;
  notes : option string;
  original_status : option string
}.

(** Modelled from the spec: the normalized lead of section 3. *)
Record NormalizedLead : Type := mkNormalized {
  n_name : string;
  phoneE164 : string;
  n_company : option string;
  n_notes : option string
}.

(** Modelled from the spec: the Normalizer of section 4.1, which is not
    among the sources.  Non-digits are stripped, the country prefix 55 is
    prepended unless the digits already start with it, and the result is
    rejected when fewer than 10 digits follow the prefix. *)
Definition normalizePhone (raw : string) : option string :=
  let digits := JS.stripNonDigits raw in
  let e164 := if JS.startsWith digits "55" then digits else "55" ++ digits in
  if (String.length e164 - 2 <? 10)%nat then None else Some e164.

Definition normalize (l : Lead) : option NormalizedLead :=
  match normalizePhone (phone l) with
  | Some p => Some (mkNormalized (name l) p (company l) (notes l))
  | None => None
  end.

(** Modelled from the spec: the report of section 3, with a lead
    reference being the lead itself. *)
Record SafetyReport : Type := mkReport {
  totalOriginal : nat;
  sendable : nat;
  alreadyContacted : nat;
  alreadyContactedList : list Lead;
  duplicatesRemoved : nat;
  duplicatesList : list Lead;
  blockedClosed : nat;
  blockedClosedList : list Lead;
  noPhone : nat
}.

Inductive Bucket : Type :=
| no_phone
| duplicates_removed
| skipped_fechado
| already_contacted
| to_send (n : NormalizedLead).

Section Filter.

(** The lookups of section 4.2: the closed-status vocabulary, in lower
    case, and the history of recent contacts for the campaign kind. *)
Variable closedVocabulary : list string.
Variable wasRecentlyContacted : string -> bool.

Definition isClosed (status : option string) : bool :=
  match status with
  | Some s => existsb (String.eqb (JS.toLowerCase s)) closedVocabulary
  | None => false
  end.

(** Modelled from the spec: the priority order of section 4.2 for one
    lead, given the phones seen earlier in the batch. *)
Definition classify (seen : list string) (l : Lead) : Bucket :=
  match normalize l with
  | None => no_phone
  | Some n =>
      if existsb (String.eqb (phoneE164 n)) seen then duplicates_removed
      else if isClosed (original_status l) then skipped_fechado
      else if wasRecentlyContacted (phoneE164 n) then already_contacted
      else to_send n
  end.

Definition empty_report : SafetyReport :=
  mkReport 0 0 0 [] 0 [] 0 [] 0.

(** The report after one more lead has gone to bucket [b]. *)
Definition record (b : Bucket) (l : Lead) (r : SafetyReport) : SafetyReport :=
  match b with
  | no_phone =>
      mkReport (S (totalOriginal r)) (sendable r)
        (alreadyContacted r) (alreadyContactedList r)
        (duplicatesRemoved r) (duplicatesList r)
        (blockedClosed r) (blockedClosedList r) (S (noPhone r))
  | duplicates_removed =>
      mkReport (S (totalOriginal r)) (sendable r)
        (alreadyContacted r) (alreadyContactedList r)
        (S (duplicatesRemoved r)) (duplicatesList r ++ [l])
        (blockedClosed r) (blockedClosedList r) (noPhone r)
  | skipped_fechado =>
      mkReport (S (totalOriginal r)) (sendable r)
        (alreadyContacted r) (alreadyContactedList r)
        (duplicatesRemoved r) (duplicatesList r)
        (S (blockedClosed r)) (blockedClosedList r ++ [l]) (noPhone r)
  | already_contacted =>
      mkReport (S (totalOriginal r)) (sendable r)
        (S (alreadyContacted r)) (alreadyContactedList r ++ [l])
        (duplicatesRemoved r) (duplicatesList r)
        (blockedClosed r) (blockedClosedList r) (noPhone r)
  | to_send _ =>
      mkReport (S (totalOriginal r)) (S (sendable r))
        (alreadyContacted r) (alreadyContactedList r)
        (duplicatesRemoved r) (duplicatesList r)
        (blockedClosed r) (blockedClosedList r) (noPhone r)
  end.

(** Modelled from the spec: the filter of section 4.2, one pass over
    the batch in input order.  A phone counts as seen from its first
    lead that normalizes, whatever bucket that lead went to. *)
Fixpoint filter_from (seen : list string) (out : list NormalizedLead)
    (r : SafetyReport) (batch : list Lead)
  : list NormalizedLead * SafetyReport :=
  match batch with
  | [] => (out, r)
  | l :: rest =>
      let b := classify seen l in
      let seen' := match normalize l with
                   | Some n => phoneE164 n :: seen
                   | None => seen
                   end in
      let out' := match b with
                  | to_send n => (out ++ [n])%list
                  | _ => out
                  end in
      filter_from seen' out' (record b l r) rest
  end.

(** Modelled from the spec: [previewCampaign(rawRows, campaignKind)],
    with the campaign kind fixed in [wasRecentlyContacted]. *)
Definition previewCampaign (rawLeads : list Lead)
  : list NormalizedLead * SafetyReport :=
  filter_from [] [] empty_report rawLeads.

End Filter.

End SafetyFilter.

Module Dispatcher.

(** Modelled from the spec: [estimatedFinishAt] of section 4.4, in
    seconds; the dispatcher is not among the sources. *)
Definition estimatedFinishAt (createdAt leadsTotal delaySeconds messagesPerLead : Z) : Z :=
  (createdAt + leadsTotal * delaySeconds * messagesPerLead)%Z.

(** Modelled from the spec: the duration of that estimate, in minutes
    rounded up. *)
Definition estimatedMinutes (leadsTotal delaySeconds messagesPerLead : Z) : Z :=
  JS.ceilDiv (estimatedFinishAt 0 leadsTotal delaySeconds messagesPerLead) 60.

End Dispatcher.

(* ================================================================== *)
(** * components/LiveCallCard.tsx *)
(* ================================================================== *)

Module LiveCallCard.

(** [formatDuration] on a whole number of seconds: [Math.floor] of the
    quotient, and the remainder of [%], which has the sign of
    [seconds]. *)
Definition formatDuration (seconds : Z) : string :=
  let mins := (seconds / 60)%Z in
  let secs := Z.rem seconds 60 in
  JS.padStart (JS.toString mins) 2 "0" ++ ":" ++ JS.padStart (JS.toString secs) 2 "0".


End LiveCallCard.

(* ================================================================== *)
(** * components/LeadCard.tsx *)
(* ================================================================== *)

Module LeadCard.

(** [formatPhone] *)
Definition formatPhone (phone : option string) : string :=
  match phone with
  | None => ""
  | Some p =>
      if negb (JS.truthy (Some p)) then ""
      else
        let clean := JS.takeLast 11 (JS.stripNonDigits p) in
        if (String.length clean =? 11)%nat then
          "(" ++ JS.take 2 clean ++ ") " ++ JS.take 5 (JS.drop 2 clean)
              ++ "-" ++ JS.drop 7 clean
        else p
  end.

Definition lf : string := String (ascii_of_nat 10) EmptyString.

(** [DEFAULT_MESSAGE_TEMPLATE]: three paragraphs with an empty line
    between them. *)
Definition DEFAULT_MESSAGE_TEMPLATE : string :=
  "Ola! Notei que a {nome_empresa} tem boas avaliacoes no Google."
  ++ lf ++ lf ++
  "Estou entrando em contato porque trabalho ajudando empresas como a sua a aumentar a presenca digital e atrair mais clientes."
  ++ lf ++ lf ++
  "Posso te mostrar como outras empresas do segmento estao conseguindo mais visibilidade online?".

(** The message that [openWhatsAppModal] puts in the text area. *)
Definition openWhatsAppModal (nome_empresa : string) : string :=
  JS.replace DEFAULT_MESSAGE_TEMPLATE "{nome_empresa}" nome_empresa.



End LeadCard.

(* ================================================================== *)
(** * components/CampaignStarter.tsx *)
(* ================================================================== *)

Module CampaignStarter.

Record State : Type := mkState {
  nicho : string;
  cidade : string;
  limite : Z
}.

Definition initial : State := {| nicho := ""; cidade := ""; limite := 20 |}.

Inductive Event : Type :=
| ChangeNicho (value : string)
| ChangeCidade (value : string)
| ChangeLimite (value : string).

(** [setLimite(Math.min(100, Math.max(5, parseInt(e.target.value) || 20)))] *)
Definition onChangeLimite (value : string) (st : State) : State :=
  {| nicho := nicho st; cidade := cidade st;
     limite := Z.min 100 (Z.max 5 (JS.or_number (JS.parseInt value) 20)) |}.

Definition step (st : State) (e : Event) : State :=
  match e with
  | ChangeNicho value =>
      {| nicho := value; cidade := cidade st; limite := limite st |}
  | ChangeCidade value =>
      {| nicho := nicho st; cidade := value; limite := limite st |}
  | ChangeLimite value => onChangeLimite value st
  end.

Definition run (events : list Event) : State := fold_left step events initial.

(** [startCampaign(nicho, cidade, limite)] *)
Record Request : Type := startCampaign {
  req_nicho : string;
  req_cidade : string;
  req_limite : Z
}.

(** [handleSubmit]: nothing without a niche and a city. *)
Definition handleSubmit (st : State) : option Request :=
  if negb (JS.truthy (Some (nicho st))) || negb (JS.truthy (Some (cidade st)))
  then None
  else Some (startCampaign (nicho st) (cidade st) (limite st)).

End CampaignStarter.

(* ================================================================== *)
(** * hooks/useVapiConnection.ts: the events of a call *)
(* ================================================================== *)

Module VapiConnection.

Record TranscriptLine : Type := mkLine {
  role : string;
  text : string
}.

(** [interface VapiEvent] *)
Record VapiEvent : Type := mkEvent {
  type : string;
  call_id : option string;
  lead_id : option string;
  lead_name : option string;
  phone_number : option string;
  status : option string;
  transcript : option TranscriptLine;
  duration : option Z
}.

(** The call as [handleEvent] builds it: every field is set by
    call-started. *)
Record ActiveCall : Type := mkCall {
  isActive : bool;
  callId : option string;
  leadId : option string;
  leadName : string;
  phoneNumber : string;
  callStatus : string;
  lines : list TranscriptLine;
  seconds : Z
}.

(** [v || null] *)
Definition or_null (v : option string) : option string :=
  if JS.truthy v then v else None.

(** [handleEvent], as the update of the active call. *)
Definition handleEvent (event : VapiEvent) (prev : option ActiveCall)
  : option ActiveCall :=
  if String.eqb (type event) "call-started" then
    Some {| isActive := true;
            callId := or_null (call_id event);
            leadId := or_null (lead_id event);
            leadName := JS.or_string (lead_name event) "Lead";
            phoneNumber := JS.or_string (phone_number event) "";
            callStatus := JS.or_string (status event) "Conectando...";
            lines := [];
            seconds := 0 |}
  else if String.eqb (type event) "transcript" then
    match transcript event, prev with
    | Some line, Some p =>
        Some {| isActive := isActive p; callId := callId p; leadId := leadId p;
                leadName := leadName p; phoneNumber := phoneNumber p;
                callStatus := callStatus p; lines := lines p ++ [line];
                seconds := seconds p |}
    | _, _ => prev
    end
  else if String.eqb (type event) "status-update" then
    match prev with
    | Some p =>
        Some {| isActive := isActive p; callId := callId p; leadId := leadId p;
                leadName := leadName p; phoneNumber := phoneNumber p;
                callStatus := JS.or_string (status event) (callStatus p);
                lines := lines p; seconds := seconds p |}
    | None => None
    end
  else if String.eqb (type event) "call-ended" then
    match prev with
    | Some p =>
        Some {| isActive := false; callId := callId p; leadId := leadId p;
                leadName := leadName p; phoneNumber := phoneNumber p;
                callStatus := callStatus p; lines := lines p;
                seconds := JS.or_number (duration event) (seconds p) |}
    | None => None
    end
  else prev.

Definition handleEvents (events : list VapiEvent) (prev : option ActiveCall)
  : option ActiveCall :=
  fold_left (fun call e => handleEvent e call) events prev.

(** [LiveCallCard] is shown: [activeCall?.isActive]. *)
Definition cardShown (call : option ActiveCall) : bool :=
  match call with
  | Some c => isActive c
  | None => false
  end.

(** The lines that the transcript events of a list carry, in order. *)
Fixpoint spoken (events : list VapiEvent) : list TranscriptLine :=
  match events with
  | [] => []
  | e :: rest =>
      match String.eqb (type e) "transcript", transcript e with
      | true, Some line => line :: spoken rest
      | _, _ => spoken rest
      end
  end.

End VapiConnection.

(* ================================================================== *)
(** * lib/api.ts: the two send requests *)
(* ================================================================== *)

Module Api.

(** [{ phone: l.phone, name: l.name }] *)
Record MinimalLead : Type := mkMinimal {
  m_phone : string;
  m_name : option string
}.

(** The form of [sendReactivation]; the leads are the value that
    [JSON.stringify] writes. *)
Record ReactivationForm : Type := mkReactivationForm {
  r_leads : list MinimalLead;
  msg1_template : string;
  r_delay_seconds : string
}.

Definition sendReactivation (leads : list ManualProspecting.Lead)
    (messageTemplate : string) (delaySeconds : Z) : ReactivationForm :=
  {| r_leads := map (fun l => mkMinimal (ManualProspecting.phone l)
                                 (ManualProspecting.name l)) leads;
     msg1_template := messageTemplate;
     r_delay_seconds := JS.toString delaySeconds |}.

(** [{ phone: l.phone, name: l.name, company: l.company || '' }] *)
Record ColdLead : Type := mkCold {
  c_phone : string;
  c_name : option string;
  c_company : string
}.

Record ColdForm : Type := mkColdForm {
  c_leads : list ColdLead;
  c_delay_seconds : string
}.

Definition sendColdProspecting (leads : list ManualProspecting.Lead)
    (delaySeconds : Z) : ColdForm :=
  {| c_leads := map (fun l => mkCold (ManualProspecting.phone l)
                                (ManualProspecting.name l)
                                (JS.or_string (ManualProspecting.company l) ""))
                    leads;
     c_delay_seconds := JS.toString delaySeconds |}.

End Api.

(* ================================================================== *)
(** * database/schema_v3.sql: leads and what hangs on them *)
(* ================================================================== *)

Module SchemaV3.

(** A row of [leads], of [lead_intelligence] and of [interactions], with
    the columns that keys and constraints mention. *)
Record LeadRow : Type := mkLeadRow {
  l_id : nat;
  nome_empresa : string;
  l_status : string
}.

Record IntelligenceRow : Type := mkIntelligence {
  i_id : nat;
  i_lead_id : nat;
  script_20_linhas : option string
}.

Record InteractionRow : Type := mkInteraction {
  x_id : nat;
  x_lead_id : nat;
  tipo : string
}.

Record Database : Type := mkDatabase {
  leads : list LeadRow;
  lead_intelligence : list IntelligenceRow;
  interactions : list InteractionRow;
  next_id : nat
}.

Definition empty : Database := mkDatabase [] [] [] 1.

Definition hasLead (id : nat) (db : Database) : bool :=
  existsb (fun l => Nat.eqb (l_id l) id) (leads db).

(** The statements against the three tables; [None] is NULL. *)
Inductive Statement : Type :=
| InsertLead (nome_empresa : option string) (status : option string)
| InsertIntelligence (lead_id : option nat) (script : option string)
| InsertInteraction (lead_id : option nat) (tipo : option string)
| DeleteLead (id : nat).

(** One statement; [None] when a constraint rejects it.  [id] has the
    default [gen_random_uuid()], a value not used before;
    [nome_empresa], [lead_id] and [tipo] are [NOT NULL]; [lead_id]
    [REFERENCES leads(id) ON DELETE CASCADE]; [lead_intelligence] has
    [UNIQUE(lead_id)]; [status] has the default 'Novo'. *)
Definition exec (s : Statement) (db : Database) : option Database :=
  match s with
  | InsertLead None _ => None
  | InsertLead (Some nome) status =>
      Some (mkDatabase
              (leads db ++ [mkLeadRow (next_id db) nome
                              (match status with Some t => t | None => "Novo" end)])
              (lead_intelligence db) (interactions db) (S (next_id db)))
  | InsertIntelligence None _ => None
  | InsertIntelligence (Some lead) script =>
      if negb (hasLead lead db) then None
      else if existsb (fun i => Nat.eqb (i_lead_id i) lead) (lead_intelligence db)
      then None
      else Some (mkDatabase (leads db)
                   (lead_intelligence db ++ [mkIntelligence (next_id db) lead script])
                   (interactions db) (S (next_id db)))
  | InsertInteraction None _ => None
  | InsertInteraction _ None => None
  | InsertInteraction (Some lead) (Some t) =>
      if negb (hasLead lead db) then None
      else Some (mkDatabase (leads db) (lead_intelligence db)
                   (interactions db ++ [mkInteraction (next_id db) lead t])
                   (S (next_id db)))
  | DeleteLead id =>
      Some (mkDatabase
              (filter (fun l => negb (Nat.eqb (l_id l) id)) (leads db))
              (filter (fun i => negb (Nat.eqb (i_lead_id i) id)) (lead_intelligence db))
              (filter (fun x => negb (Nat.eqb (x_lead_id x) id)) (interactions db))
              (next_id db))
  end.

(** A run of statements; a rejected statement leaves the database as it
    is. *)
Definition run (statements : list Statement) (db : Database) : Database :=
  fold_left (fun d s => match exec s d with Some d' => d' | None => d end)
    statements db.

(** Every row of [lead_intelligence] and of [interactions] points at a
    lead that is there, and no lead has two rows of intelligence. *)
Definition consistent (db : Database) : Prop :=
  (forall i, In i (lead_intelligence db) -> hasLead (i_lead_id i) db = true)
  /\ (forall x, In x (interactions db) -> hasLead (x_lead_id x) db = true)
  /\ NoDup (map i_lead_id (lead_intelligence db)).

End SchemaV3.

(* ================================================================== *)
(** * Facts about the string built-ins *)
(* ================================================================== *)

Section StringFacts.

Lemma startsWith_app (p rest : string) : JS.startsWith (p ++ rest) p = true.
Proof.
  induction p as [|c p IH]; simpl; [reflexivity|].
  now rewrite Ascii.eqb_refl, IH.
Qed.

Lemma drop_app (p rest : string) : JS.drop (String.length p) (p ++ rest) = rest.
Proof. induction p; simpl; auto. Qed.

Lemma startsWith_split (p s : string) :
  JS.startsWith s p = true -> s = p ++ JS.drop (String.length p) s.
Proof.
  revert s; induction p as [|c p IH]; intros s H; simpl in *; [reflexivity|].
  destruct s as [|d s]; [discriminate|].
  apply andb_true_iff in H as [Hc Hs].
  apply Ascii.eqb_eq in Hc; subst d.
  now rewrite <- (IH s Hs).
Qed.

(** What [split_first] returns is a decomposition of the subject. *)
Lemma split_first_sound (p s b a : string) :
  JS.split_first p s = Some (b, a) -> s = b ++ p ++ a.
Proof.
  revert b a; induction s as [|c s IH]; intros b a; simpl.
  - destruct (JS.startsWith "" p) eqn:E; [|discriminate].
    intros [= <- <-]. now apply startsWith_split in E.
  - destruct (JS.startsWith (String c s) p) eqn:E.
    + intros [= <- <-]. now apply startsWith_split in E.
    + destruct (JS.split_first p s) as [[b' a']|] eqn:F; [|discriminate].
      intros [= <- <-]. simpl. f_equal. now apply IH.
Qed.

Lemma string_length_app (a b : string) :
  String.length (a ++ b) = (String.length a + String.length b)%nat.
Proof. induction a; simpl; auto. Qed.

Lemma includesChar_app (a b : string) (c : ascii) :
  JS.includesChar (a ++ b) c = JS.includesChar a c || JS.includesChar b c.
Proof.
  induction a as [|d a IH]; simpl; [reflexivity|].
  now rewrite IH, orb_assoc.
Qed.

Lemma split_first_cons (p : string) (c : ascii) (s : string) :
  JS.split_first p (String c s)
  = if JS.startsWith (String c s) p
    then Some (EmptyString, JS.drop (String.length p) (String c s))
    else match JS.split_first p s with
         | Some (b, a) => Some (String c b, a)
         | None => None
         end.
Proof. reflexivity. Qed.

Lemma startsWith_other (c d : ascii) (p s : string) :
  Ascii.eqb c d = false -> JS.startsWith (String d s) (String c p) = false.
Proof. intros H; simpl; now rewrite H. Qed.

(** A pattern cannot start where its first character is not. *)
Lemma split_first_absent (c : ascii) (p s : string) :
  JS.includesChar s c = false -> JS.split_first (String c p) s = None.
Proof.
  induction s as [|d s IH]; simpl; intros H; [reflexivity|].
  apply orb_false_iff in H as [Hd Hs].
  rewrite Hd; simpl. now rewrite (IH Hs).
Qed.

Lemma split_first_here (c : ascii) (p pre post : string) :
  JS.includesChar pre c = false ->
  JS.split_first (String c p) (pre ++ String c p ++ post) = Some (pre, post).
Proof.
  induction pre as [|d pre IH]; intros H.
  - change ("" ++ String c p ++ post) with (String c (p ++ post)).
    simpl. rewrite Ascii.eqb_refl, startsWith_app; simpl.
    now rewrite drop_app.
  - simpl in H. apply orb_false_iff in H as [Hd Hs].
    change (String d pre ++ String c p ++ post)
      with (String d (pre ++ String c p ++ post)).
    rewrite split_first_cons, (startsWith_other _ _ _ _ Hd).
    now rewrite (IH Hs).
Qed.

Lemma replaceAll_from_absent (fuel : nat) (p r seen s : string) :
  JS.split_first p s = None -> JS.replaceAll_from fuel p r seen s = s.
Proof. intros H; destruct fuel; simpl; [reflexivity|now rewrite H]. Qed.

Lemma replaceAll_absent (s p r : string) :
  JS.includes s p = false -> JS.replaceAll s p r = s.
Proof.
  unfold JS.includes, JS.replaceAll; intros H.
  apply replaceAll_from_absent.
  destruct (JS.split_first p s); [discriminate|reflexivity].
Qed.

Lemma replace_absent (s p r : string) :
  JS.includes s p = false -> JS.replace s p r = s.
Proof.
  unfold JS.includes, JS.replace.
  destruct (JS.split_first p s) as [[b a]|]; [discriminate|reflexivity].
Qed.

(** The fuel of [replaceAll] is enough: with a pattern that is not
    empty every match consumes a character, so more fuel changes
    nothing. *)
Lemma replaceAll_from_fuel (p r : string) :
  p <> EmptyString ->
  forall (fuel : nat) (seen s : string),
    (String.length s <= fuel)%nat ->
    JS.replaceAll_from fuel p r seen s
    = JS.replaceAll_from (String.length s) p r seen s.
Proof.
  intros Hp fuel; induction fuel as [fuel IH] using lt_wf_ind.
  intros seen s Hs.
  destruct (JS.split_first p s) as [[b a]|] eqn:E;
    [|now rewrite !replaceAll_from_absent].
  pose proof (split_first_sound _ _ _ _ E) as Hdec.
  assert (Hlen : (String.length a < String.length s)%nat).
  { rewrite Hdec, !string_length_app.
    destruct p; [congruence|simpl; lia]. }
  destruct fuel as [|f]; [lia|].
  destruct (String.length s) as [|n] eqn:Hn; [lia|].
  simpl. rewrite E. do 2 f_equal.
  rewrite (IH f) by lia. symmetry. apply IH; lia.
Qed.

(** A replacement without dollars is inserted as it is. *)
Lemma GetSubstitution_plain (matched before after r : string) :
  JS.includesChar r "$" = false ->
  JS.GetSubstitution matched before after r = r.
Proof.
  induction r as [|c r IH]; simpl; intros H; [reflexivity|].
  apply orb_false_iff in H as [Hc Hr].
  destruct (Ascii.ascii_dec c "$") as [->|Hne]; [discriminate|].
  rewrite (IH Hr).
  destruct c as [[] [] [] [] [] [] [] []]; try reflexivity; congruence.
Qed.

End StringFacts.

(* ================================================================== *)
(** * The safety report accounts for every lead *)
(* ================================================================== *)

Section SafetyReportFacts.

Import SafetyFilter.

Variable closedVocabulary : list string.
Variable wasRecentlyContacted : string -> bool.

Let filter_from := filter_from closedVocabulary wasRecentlyContacted.

(** Recording one lead adds one to the total and one to exactly one
    bucket. *)
Lemma record_counts (b : Bucket) (l : Lead) (r : SafetyReport) :
  totalOriginal (record b l r) = S (totalOriginal r)
  /\ (sendable (record b l r) + alreadyContacted (record b l r)
      + duplicatesRemoved (record b l r) + blockedClosed (record b l r)
      + noPhone (record b l r)
      = S (sendable r + alreadyContacted r + duplicatesRemoved r
           + blockedClosed r + noPhone r))%nat.
Proof. destruct b; simpl; split; lia. Qed.

Lemma record_sendable (b : Bucket) (l : Lead) (r : SafetyReport) :
  sendable (record b l r)
  = match b with to_send _ => S (sendable r) | _ => sendable r end.
Proof. now destruct b. Qed.

Lemma filter_from_counts (batch : list Lead) :
  forall (seen : list string) (out : list NormalizedLead) (r : SafetyReport),
    let res := filter_from seen out r batch in
    totalOriginal (snd res) = (totalOriginal r + List.length batch)%nat
    /\ (sendable (snd res) + alreadyContacted (snd res)
        + duplicatesRemoved (snd res) + blockedClosed (snd res)
        + noPhone (snd res)
        = sendable r + alreadyContacted r + duplicatesRemoved r
          + blockedClosed r + noPhone r + List.length batch)%nat
    /\ (sendable r = List.length out ->
        sendable (snd res) = List.length (fst res)).
Proof.
  induction batch as [|l rest IH]; intros seen out r; simpl.
  - repeat split; auto; lia.
  - subst filter_from; simpl.
    set (b := classify closedVocabulary wasRecentlyContacted seen l).
    set (seen' := match normalize l with
                  | Some n => phoneE164 n :: seen
                  | None => seen
                  end).
    set (out' := match b with to_send n => (out ++ [n])%list | _ => out end).
    destruct (IH seen' out' (record b l r)) as (Ht & Hs & Hl).
    destruct (record_counts b l r) as (Rt & Rs).
    repeat split.
    + rewrite Ht, Rt. lia.
    + rewrite Hs, Rs. lia.
    + intros Hout. apply Hl. rewrite record_sendable. subst out'.
      destruct b; auto. rewrite List.length_app; simpl. lia.
Qed.

End SafetyReportFacts.

(** The example of section 8 of the specification: a closed lead, the same
    phone again, and a phone without digits. *)
Example previewCampaign_example :
  let batch :=
    [ SafetyFilter.mkLead "Ana" "11988887777" None None (Some "Fechado");
      SafetyFilter.mkLead "Ana" "11988887777" None None None;
      SafetyFilter.mkLead "Bruno" "bad" None None None ] in
  let result := SafetyFilter.previewCampaign ["fechado"] (fun _ => false) batch in
  fst result = []
  /\ SafetyFilter.blockedClosed (snd result) = 1%nat
  /\ SafetyFilter.duplicatesRemoved (snd result) = 1%nat
  /\ SafetyFilter.noPhone (snd result) = 1%nat
  /\ SafetyFilter.totalOriginal (snd result) = 3%nat.
Proof. cbv zeta. repeat split; reflexivity. Qed.

(** C1. For every raw batch, the report of the safety filter satisfies
    [totalOriginal = sendable + alreadyContacted + duplicatesRemoved +
    blockedClosed + noPhone]: every lead of the batch is counted once, in
    one bucket.  The total is the size of the batch and [sendable] is the
    size of the send list. *)
Theorem C1_partition_completeness
    (closedVocabulary : list string) (wasRecentlyContacted : string -> bool)
    (rawLeads : list SafetyFilter.Lead) :
  let result :=
    SafetyFilter.previewCampaign closedVocabulary wasRecentlyContacted rawLeads in
  let report := snd result in
  SafetyFilter.totalOriginal report
  = (SafetyFilter.sendable report + SafetyFilter.alreadyContacted report
     + SafetyFilter.duplicatesRemoved report + SafetyFilter.blockedClosed report
     + SafetyFilter.noPhone report)%nat
  /\ SafetyFilter.totalOriginal report = List.length rawLeads
  /\ SafetyFilter.sendable report = List.length (fst result).
Proof.
  cbv zeta. unfold SafetyFilter.previewCampaign.
  destruct (filter_from_counts closedVocabulary wasRecentlyContacted rawLeads
              [] [] SafetyFilter.empty_report) as (Ht & Hs & Hl).
  simpl in Ht, Hs. repeat split.
  - rewrite Ht, Hs. reflexivity.
  - exact Ht.
  - apply Hl. reflexivity.
Qed.

(* ================================================================== *)
(** * The delay between messages *)
(* ================================================================== *)

Section DelayFacts.

Local Open Scope Z_scope.

(** ReactivationCampaign.tsx clamps whatever is typed. *)
Lemma reactivation_onChangeDelay_bounds
    (value : string) (st : ReactivationCampaign.State) :
  30 <= ReactivationCampaign.delaySeconds
          (ReactivationCampaign.onChangeDelay value st) <= 120.
Proof. simpl. lia. Qed.

Lemma reactivation_step_bounds
    (st : ReactivationCampaign.State) (e : ReactivationCampaign.Event) :
  30 <= ReactivationCampaign.delaySeconds st <= 120 ->
  30 <= ReactivationCampaign.delaySeconds (ReactivationCampaign.step st e) <= 120.
Proof.
  destruct e; simpl; try tauto. intros _. lia.
Qed.

Lemma reactivation_fold_bounds (events : list ReactivationCampaign.Event) :
  forall st : ReactivationCampaign.State,
    30 <= ReactivationCampaign.delaySeconds st <= 120 ->
    30 <= ReactivationCampaign.delaySeconds
            (fold_left ReactivationCampaign.step events st) <= 120.
Proof.
  induction events as [|e events IH]; intros st H; simpl; [exact H|].
  apply IH. now apply reactivation_step_bounds.
Qed.

(** In ReactivationCampaign.tsx every campaign is sent with a delay
    between 30 and 120 seconds, whatever the operator did before. *)
Lemma reactivation_send_delay_bounds
    (events : list ReactivationCampaign.Event) (req : ReactivationCampaign.Request) :
  ReactivationCampaign.handleSendCampaign (ReactivationCampaign.run events)
  = Some req ->
  30 <= ReactivationCampaign.delay req <= 120.
Proof.
  unfold ReactivationCampaign.handleSendCampaign, ReactivationCampaign.run.
  pose proof (reactivation_fold_bounds events ReactivationCampaign.initial) as H.
  destruct (ReactivationCampaign.previewData _); [|discriminate].
  intros [= <-]. simpl. apply H. simpl. lia.
Qed.

(** ManualProspecting.tsx sends the number that was typed. *)
Lemma manual_send_delay_is_typed
    (events : list ManualProspecting.Event)
    (data : ManualProspecting.PreviewData) (value : string) :
  option_map ManualProspecting.requestDelay
    (ManualProspecting.handleSend
       (ManualProspecting.run
          (events ++ [ManualProspecting.FileLoaded data;
                      ManualProspecting.ChangeDelay value])))
  = Some (JS.Number value).
Proof.
  unfold ManualProspecting.run. rewrite fold_left_app. simpl.
  unfold ManualProspecting.handleSend; simpl.
  now destruct (ManualProspecting.mode _) as [[]|].
Qed.

End DelayFacts.

(** C2.  The delay used to launch a campaign should lie in [30, 120]
    whatever the operator enters.  ReactivationCampaign.tsx clamps the
    field ([reactivation_send_delay_bounds]); ManualProspecting.tsx does
    not: whatever happened before, once a file is loaded and the operator
    types 5, the campaign is sent with a delay of 5 seconds. *)
Theorem C2_manual_delay_not_clamped
    (history : list ManualProspecting.Event) (data : ManualProspecting.PreviewData) :
  option_map ManualProspecting.requestDelay
    (ManualProspecting.handleSend
       (ManualProspecting.run
          (history ++ [ManualProspecting.FileLoaded data;
                       ManualProspecting.ChangeDelay "5"])))
  = Some (JS.Int 5)
  /\ option_map ManualProspecting.requestDelay
       (ManualProspecting.handleSend
          (ManualProspecting.run
             [ManualProspecting.SelectMode ManualProspecting.custom;
              ManualProspecting.FileLoaded data;
              ManualProspecting.ChangeDelay "5"]))
     = Some (JS.Int 5).
Proof.
  split.
  - now rewrite manual_send_delay_is_typed.
  - reflexivity.
Qed.

(* ================================================================== *)
(** * Rendering a template *)
(* ================================================================== *)

Section RenderFacts.

Lemma includes_absent (c : ascii) (p s : string) :
  JS.includesChar s c = false -> JS.includes s (String c p) = false.
Proof.
  intros H; unfold JS.includes. now rewrite (split_first_absent c p s H).
Qed.

Lemma plain_spec (text : string) :
  ManualProspecting.plain text = true
  <-> JS.includesChar text "[" = false /\ JS.includesChar text "{" = false.
Proof.
  unfold ManualProspecting.plain.
  rewrite andb_true_iff, !negb_true_iff. tauto.
Qed.

(** One occurrence, found by its first character, is replaced where it
    stands. *)
Lemma replaceAll_single (c : ascii) (p pre post r : string) :
  JS.includesChar pre c = false ->
  JS.includesChar post c = false ->
  JS.replaceAll (pre ++ String c p ++ post) (String c p) r
  = pre ++ JS.GetSubstitution (String c p) pre post r ++ post.
Proof.
  intros Hpre Hpost. unfold JS.replaceAll.
  destruct (String.length (pre ++ String c p ++ post)) as [|f] eqn:Hlen.
  - rewrite string_length_app in Hlen. simpl in Hlen. lia.
  - cbn [JS.replaceAll_from]. rewrite (split_first_here c p pre post Hpre).
    cbn [append].
    now rewrite (replaceAll_from_absent f _ r _ post
                   (split_first_absent c p post Hpost)).
Qed.

Lemma replace_single (c : ascii) (p pre post r : string) :
  JS.includesChar pre c = false ->
  JS.replace (pre ++ String c p ++ post) (String c p) r
  = pre ++ JS.GetSubstitution (String c p) pre post r ++ post.
Proof.
  intros Hpre. unfold JS.replace.
  now rewrite (split_first_here c p pre post Hpre).
Qed.

(** A text without placeholders is rendered as it is. *)
Lemma manual_formatMessage_fixed (text : string) (lead : ManualProspecting.Lead) :
  ManualProspecting.hasPlaceholder text = false ->
  ManualProspecting.formatMessage text lead = text.
Proof.
  unfold ManualProspecting.hasPlaceholder, ManualProspecting.placeholders.
  cbn [existsb]. rewrite !orb_false_iff.
  intros (H1 & H2 & H3 & H4 & H5 & H6 & _).
  unfold ManualProspecting.formatMessage; cbv zeta.
  now rewrite (replaceAll_absent _ _ _ H1), (replaceAll_absent _ _ _ H2),
              (replaceAll_absent _ _ _ H3), (replaceAll_absent _ _ _ H4),
              (replaceAll_absent _ _ _ H5), (replaceAll_absent _ _ _ H6).
Qed.

(** The fallbacks of ManualProspecting.tsx: a lead without a name, notes
    or company is rendered like the lead that carries "Amigo", "crescer o
    negocio" and the empty text in their place. *)
Lemma manual_formatMessage_fallbacks (template : string) (lead : ManualProspecting.Lead) :
  ManualProspecting.formatMessage template lead
  = ManualProspecting.formatMessage template
      (ManualProspecting.mkLead
         (Some (JS.or_string (ManualProspecting.name lead) "Amigo"))
         (ManualProspecting.phone lead)
         (Some (JS.or_string (ManualProspecting.company lead) ""))
         (Some (JS.or_string (ManualProspecting.notes lead) "crescer o negocio"))
         (ManualProspecting.original_status lead)).
Proof.
  assert (Hor : forall v d, JS.or_string (Some (JS.or_string v d)) d = JS.or_string v d).
  { intros v d; unfold JS.or_string.
    destruct v as [s|]; [destruct (String.eqb s "") eqn:E|];
      try rewrite E; try reflexivity; now destruct (String.eqb d ""). }
  unfold ManualProspecting.formatMessage; cbn [ManualProspecting.name
    ManualProspecting.notes ManualProspecting.company].
  now rewrite !Hor.
Qed.

Lemma includes_skip (c : ascii) (p pre s : string) :
  JS.includesChar pre c = false ->
  JS.includes (pre ++ s) (String c p) = JS.includes s (String c p).
Proof.
  intros H; unfold JS.includes. induction pre as [|d pre IH]; [reflexivity|].
  simpl in H. apply orb_false_iff in H as [Hd Hs].
  change (String d pre ++ s) with (String d (pre ++ s)).
  rewrite split_first_cons, (startsWith_other _ _ _ _ Hd).
  specialize (IH Hs).
  destruct (JS.split_first (String c p) (pre ++ s)) as [[b a]|];
    destruct (JS.split_first (String c p) s) as [[b' a']|];
    congruence.
Qed.

Lemma includes_cons_other (p : string) (d : ascii) (s : string) :
  JS.startsWith (String d s) p = false ->
  JS.includes (String d s) p = JS.includes s p.
Proof.
  intros H; unfold JS.includes. rewrite split_first_cons, H.
  now destruct (JS.split_first p s) as [[b a]|].
Qed.

(** The text does not contain the first character of the pattern. *)
Ltac char_absent :=
  apply includes_absent; rewrite ?includesChar_app; cbn [JS.includesChar];
  repeat match goal with
         | H : JS.includesChar _ _ = false |- _ => rewrite H
         end;
  reflexivity.

(** The pattern does not occur in [pre ++ middle ++ post]: [pre] and
    [post] lack its first character, and [middle] is a value that lacks
    it too or another placeholder. *)
Ltac pattern_absent :=
  rewrite includes_skip by assumption;
  first [ char_absent
        | cbn [append]; rewrite includes_cons_other by reflexivity;
          char_absent ].

(** Rewrites the innermost replacement of a chain: at the placeholder
    itself, or past a text that does not contain it. *)
Ltac render_step :=
  match goal with
  | |- context [JS.replaceAll (?a ++ ?b ++ ?c) ?p ?r] =>
      first
        [ rewrite (replaceAll_single _ _ a c r) by assumption;
          rewrite GetSubstitution_plain by assumption
        | rewrite (replaceAll_absent (a ++ b ++ c) p r) by pattern_absent ]
  end.

(** A placeholder that stands alone between plain texts is replaced by
    its value, fallbacks included, when the value is plain and has no
    dollar. *)
Lemma manual_formatMessage_single
    (pre post ph v : string) (lead : ManualProspecting.Lead) :
  In (ph, v) (ManualProspecting.substitutions lead) ->
  ManualProspecting.plain pre = true ->
  ManualProspecting.plain post = true ->
  ManualProspecting.plain v = true ->
  JS.includesChar v "$" = false ->
  ManualProspecting.formatMessage (pre ++ ph ++ post) lead = pre ++ v ++ post.
Proof.
  intros Hin Hpre Hpost Hv Hdollar.
  apply plain_spec in Hpre as [Pb Pc], Hpost as [Qb Qc], Hv as [Vb Vc].
  unfold ManualProspecting.substitutions in Hin. simpl in Hin.
  unfold ManualProspecting.formatMessage; cbv zeta.
  destruct Hin as [E|[E|[E|[E|[E|[E|[]]]]]]];
    injection E as <- Ev; rewrite Ev;
    repeat render_step; reflexivity.
Qed.

End RenderFacts.

Section RenderAgreement.

(** The same two tactics for the first-occurrence [replace] of
    ReactivationCampaign.tsx. *)
Ltac first_absent :=
  rewrite includes_skip by assumption;
  first [ apply includes_absent; rewrite ?includesChar_app;
          cbn [JS.includesChar];
          repeat match goal with
                 | H : JS.includesChar _ _ = false |- _ => rewrite H
                 end;
          reflexivity
        | cbn [append]; rewrite includes_cons_other by reflexivity;
          apply includes_absent; rewrite ?includesChar_app;
          cbn [JS.includesChar];
          repeat match goal with
                 | H : JS.includesChar _ _ = false |- _ => rewrite H
                 end;
          reflexivity ].

Ltac replace_step :=
  match goal with
  | |- context [JS.replace (?a ++ ?b ++ ?c) ?p ?r] =>
      first
        [ rewrite (replace_single _ _ a c r) by assumption;
          rewrite GetSubstitution_plain by assumption
        | rewrite (replace_absent (a ++ b ++ c) p r) by first_absent ]
  end.

(** What ReactivationCampaign.tsx puts in place of each placeholder. *)
Lemma reactivation_formatMessage_single
    (pre post ph v : string) (lead : ReactivationCampaign.ReactivationLead) :
  In (ph, v)
     [ ("[NAME]", ReactivationCampaign.name lead);
       ("[NOTES]", ReactivationCampaign.notes lead);
       ("[COMPANY]", JS.or_string (ReactivationCampaign.company lead) "");
       ("{name}", ReactivationCampaign.name lead);
       ("{notes}", ReactivationCampaign.notes lead);
       ("{company}", JS.or_string (ReactivationCampaign.company lead) "") ] ->
  ManualProspecting.plain pre = true ->
  ManualProspecting.plain post = true ->
  ManualProspecting.plain v = true ->
  JS.includesChar v "$" = false ->
  ReactivationCampaign.formatMessage (pre ++ ph ++ post) lead = pre ++ v ++ post.
Proof.
  intros Hin Hpre Hpost Hv Hdollar.
  apply plain_spec in Hpre as [Pb Pc], Hpost as [Qb Qc], Hv as [Vb Vc].
  simpl in Hin.
  unfold ReactivationCampaign.formatMessage; cbv zeta.
  destruct Hin as [E|[E|[E|[E|[E|[E|[]]]]]]];
    injection E as <- Ev; rewrite Ev;
    repeat replace_step; reflexivity.
Qed.

(** Where the two components agree: a template with one placeholder
    between plain texts, and a lead whose name and notes are not empty
    and whose values are plain and have no dollar. *)
Lemma formatMessage_agree_single
    (pre post ph : string) (lead : ReactivationCampaign.ReactivationLead) :
  In ph ManualProspecting.placeholders ->
  ManualProspecting.plain pre = true ->
  ManualProspecting.plain post = true ->
  ReactivationCampaign.name lead <> "" ->
  ReactivationCampaign.notes lead <> "" ->
  (forall v, In v [ReactivationCampaign.name lead;
                   ReactivationCampaign.notes lead;
                   JS.or_string (ReactivationCampaign.company lead) ""] ->
             ManualProspecting.plain v = true /\ JS.includesChar v "$" = false) ->
  ReactivationCampaign.formatMessage (pre ++ ph ++ post) lead
  = ManualProspecting.formatMessage (pre ++ ph ++ post)
      (ReactivationCampaign.asLead lead).
Proof.
  intros Hph Hpre Hpost Hname Hnotes Hvals.
  assert (Hn : JS.or_string (Some (ReactivationCampaign.name lead)) "Amigo"
               = ReactivationCampaign.name lead).
  { unfold JS.or_string.
    destruct (String.eqb_spec (ReactivationCampaign.name lead) ""); congruence. }
  assert (Ho : JS.or_string (Some (ReactivationCampaign.notes lead))
                 "crescer o negocio" = ReactivationCampaign.notes lead).
  { unfold JS.or_string.
    destruct (String.eqb_spec (ReactivationCampaign.notes lead) ""); congruence. }
  destruct (Hvals (ReactivationCampaign.name lead)) as [N1 N2]; [simpl; auto|].
  destruct (Hvals (ReactivationCampaign.notes lead)) as [O1 O2]; [simpl; auto|].
  destruct (Hvals (JS.or_string (ReactivationCampaign.company lead) ""))
    as [C1 C2]; [simpl; auto|].
  simpl in Hph.
  destruct Hph as [<-|[<-|[<-|[<-|[<-|[<-|[]]]]]]];
    match goal with
    | |- ReactivationCampaign.formatMessage (_ ++ ?p ++ _) _ = _ =>
        match p with
        | "[NAME]" => pose (v := ReactivationCampaign.name lead)
        | "{name}" => pose (v := ReactivationCampaign.name lead)
        | "[NOTES]" => pose (v := ReactivationCampaign.notes lead)
        | "{notes}" => pose (v := ReactivationCampaign.notes lead)
        | _ => pose (v := JS.or_string (ReactivationCampaign.company lead) "")
        end;
        rewrite (reactivation_formatMessage_single pre post p v lead);
        [ rewrite (manual_formatMessage_single pre post p v
                     (ReactivationCampaign.asLead lead));
          [ reflexivity
          | unfold ManualProspecting.substitutions, ReactivationCampaign.asLead;
            cbn [ManualProspecting.name ManualProspecting.notes
                 ManualProspecting.company];
            rewrite Hn, Ho; subst v; simpl; tauto
          | assumption .. ]
        | subst v; simpl; tauto
        | assumption .. ]
    end.
Qed.

End RenderAgreement.

(** C3.  Rendering should replace a missing name by a greeting noun and
    missing notes by a benefit phrase.  ManualProspecting.tsx does
    ([manual_formatMessage_fallbacks], [manual_formatMessage_single]);
    the [formatMessage] of ReactivationCampaign.tsx inserts the empty name
    and the empty notes as they are. *)
Theorem C3_reactivation_formatMessage_no_fallback :
  let lead := ReactivationCampaign.mkLead "" "5511988887777" "" None None in
  ReactivationCampaign.formatMessage "Oi [NAME], vi que voce quer [NOTES]." lead
  = "Oi , vi que voce quer ."
  /\ ManualProspecting.formatMessage "Oi [NAME], vi que voce quer [NOTES]."
       (ReactivationCampaign.asLead lead)
     = "Oi Amigo, vi que voce quer crescer o negocio.".
Proof. split; reflexivity. Qed.

(** C9, as the claim states it: rendering the output again with the same
    lead does not always leave it unchanged.  Notes that contain a
    placeholder are inserted by the first rendering and replaced by the
    second. *)
Lemma C9_counterexample :
  let lead := ManualProspecting.mkLead (Some "Ana") "5511988887777" None
                (Some "[NAME]") None in
  ManualProspecting.formatMessage "Quero [NOTES]" lead = "Quero [NAME]"
  /\ ManualProspecting.formatMessage
       (ManualProspecting.formatMessage "Quero [NOTES]" lead) lead
     = "Quero Ana"
  /\ ManualProspecting.formatMessage
       (ManualProspecting.formatMessage "Quero [NOTES]" lead) lead
     <> ManualProspecting.formatMessage "Quero [NOTES]" lead.
Proof. cbv zeta. repeat split; try reflexivity. discriminate. Qed.

(** C9, amended.  [formatMessage] is a function of its two arguments, and
    rendering its output again with the same lead leaves the text
    unchanged whenever that output contains none of the six
    placeholders. *)
Theorem C9_render_stable_without_placeholders
    (template : string) (lead : ManualProspecting.Lead) :
  ManualProspecting.hasPlaceholder
    (ManualProspecting.formatMessage template lead) = false ->
  ManualProspecting.formatMessage
    (ManualProspecting.formatMessage template lead) lead
  = ManualProspecting.formatMessage template lead
  /\ (forall template' lead',
        template' = template -> lead' = lead ->
        ManualProspecting.formatMessage template' lead'
        = ManualProspecting.formatMessage template lead).
Proof.
  intros H; split.
  - now apply manual_formatMessage_fixed.
  - now intros ? ? -> ->.
Qed.

(** C9 on a greeting for Ana: nothing is left to replace, and a second
    rendering changes nothing. *)
Lemma C9_render_stable_witness :
  let lead := ManualProspecting.mkLead (Some "Ana") "5511988887777" None None None in
  ManualProspecting.hasPlaceholder
    (ManualProspecting.formatMessage "Oi [NAME], {notes}!" lead) = false
  /\ ManualProspecting.formatMessage
       (ManualProspecting.formatMessage "Oi [NAME], {notes}!" lead) lead
     = ManualProspecting.formatMessage "Oi [NAME], {notes}!" lead.
Proof.
  cbv zeta. split; [reflexivity|].
  apply (proj1 (C9_render_stable_without_placeholders "Oi [NAME], {notes}!"
           (ManualProspecting.mkLead (Some "Ana") "5511988887777" None None None)
           eq_refl)).
Defined.

(** C10.  The two components should render alike.  ManualProspecting.tsx
    replaces every occurrence of a placeholder, ReactivationCampaign.tsx
    only the first one: a template that names the lead twice keeps its
    second placeholder there. *)
Theorem C10_formatMessage_differ :
  let lead := ReactivationCampaign.mkLead "Ana" "5511988887777" "vender mais"
                (Some "Acme") None in
  ManualProspecting.formatMessage "[NAME], tudo bem? Ate logo, [NAME]!"
    (ReactivationCampaign.asLead lead)
  = "Ana, tudo bem? Ate logo, Ana!"
  /\ ReactivationCampaign.formatMessage "[NAME], tudo bem? Ate logo, [NAME]!" lead
     = "Ana, tudo bem? Ate logo, [NAME]!".
Proof. split; reflexivity. Qed.

(* ================================================================== *)
(** * The estimated duration *)
(* ================================================================== *)

Section EstimateFacts.

Local Open Scope Z_scope.


End EstimateFacts.



(* ================================================================== *)
(** * The progress poll *)
(* ================================================================== *)

Section PollFacts.

Import AppContext.

(** Whether [poll] arms a timer depends on the answer only. *)
Lemma poll_timer (r : ApiResponse CampaignProgress) (st : State) :
  snd (poll r st)
  = match data r with
    | None => None
    | Some d =>
        if String.eqb (status d) "completed" || String.eqb (status d) "failed"
        then None else Some 1000%Z
    end.
Proof.
  unfold poll. destruct (data r) as [d|]; [|reflexivity].
  destruct (String.eqb (status d) "completed"); [reflexivity|].
  now destruct (String.eqb (status d) "failed").
Qed.

(** While the answers keep the timer armed, the loop makes one request
    per answer and goes on. *)
Lemma pollLoop_armed (answers : list (ApiResponse CampaignProgress)) :
  forall st : State,
    Forall (fun r => forall st', snd (poll r st') <> None) answers ->
    snd (fst (pollLoop answers st)) = List.length answers
    /\ snd (pollLoop answers st) = true.
Proof.
  induction answers as [|r answers IH]; intros st H; simpl; [auto|].
  inversion H as [|? ? Hr Hrest]; subst.
  specialize (Hr st).
  destruct (poll r st) as [st' [ms|]] eqn:E; simpl in Hr; [|congruence].
  destruct (IH st' Hrest) as [Hn Ha].
  destruct (pollLoop answers st') as [[st'' n] armed]; simpl in *.
  now subst.
Qed.

(** The loop stops at the first answer that does not arm the timer. *)
Lemma pollLoop_stops (before : list (ApiResponse CampaignProgress))
    (r : ApiResponse CampaignProgress) (after : list (ApiResponse CampaignProgress)) :
  forall st : State,
    Forall (fun a => forall st', snd (poll a st') <> None) before ->
    (forall st', snd (poll r st') = None) ->
    snd (fst (pollLoop (before ++ r :: after) st)) = S (List.length before)
    /\ snd (pollLoop (before ++ r :: after) st) = false.
Proof.
  induction before as [|a before IH]; intros st H Hr; simpl.
  - specialize (Hr st). destruct (poll r st) as [st' [ms|]]; simpl in *;
      [discriminate|auto].
  - inversion H as [|? ? Ha Hrest]; subst. specialize (Ha st).
    destruct (poll a st) as [st' [ms|]] eqn:E; simpl in Ha; [|congruence].
    destruct (IH st' Hrest Hr) as [Hn Hs].
    destruct (pollLoop (before ++ r :: after) st') as [[st'' n] armed];
      simpl in *. now subst.
Qed.

End PollFacts.

(** C5, as the claim states it: the poll would stop when it sees the
    status cancelled.  It arms the timer again, and keeps asking as long
    as that status comes back. *)
Lemma C5_counterexample :
  snd (AppContext.poll (AppContext.answer "cancelled") AppContext.started)
  = Some 1000%Z
  /\ snd (fst (AppContext.pollLoop
                 [AppContext.answer "cancelled"; AppContext.answer "cancelled";
                  AppContext.answer "cancelled"] AppContext.started)) = 3%nat
  /\ snd (AppContext.pollLoop
            [AppContext.answer "cancelled"; AppContext.answer "cancelled";
             AppContext.answer "cancelled"] AppContext.started) = true.
Proof. repeat split; reflexivity. Qed.

(** C5, amended.  A run of [poll] arms no timer exactly when the answer
    carries no data or its status is completed or failed; for every other
    status, cancelled included, it arms one of 1000 ms.  So the loop makes
    one request per answer and stops at the first answer of that kind. *)
Theorem C5_poll_stops_on_completed_or_failed
    (r : AppContext.ApiResponse AppContext.CampaignProgress) (st : AppContext.State) :
  (snd (AppContext.poll r st) = None
   <-> (AppContext.data r = None
        \/ exists d, AppContext.data r = Some d
                     /\ (AppContext.status d = "completed"
                         \/ AppContext.status d = "failed")))
  /\ (snd (AppContext.poll r st) = None \/ snd (AppContext.poll r st) = Some 1000%Z)
  /\ (forall before after,
        Forall (fun a => forall st', snd (AppContext.poll a st') <> None) before ->
        snd (AppContext.poll r st) = None ->
        snd (fst (AppContext.pollLoop (before ++ r :: after) st))
        = S (List.length before)
        /\ snd (AppContext.pollLoop (before ++ r :: after) st) = false).
Proof.
  rewrite !poll_timer. repeat split.
  - destruct (AppContext.data r) as [d|]; [|auto].
    destruct (String.eqb_spec (AppContext.status d) "completed") as [Hc|Hc];
      [intros _; right; exists d; auto|].
    destruct (String.eqb_spec (AppContext.status d) "failed") as [Hf|Hf];
      [intros _; right; exists d; auto|discriminate].
  - intros [H|(d & H & [Hs|Hs])]; rewrite H; [reflexivity| |];
      rewrite Hs; reflexivity.
  - destruct (AppContext.data r) as [d|]; [|auto].
    destruct (_ || _); auto.
  - apply pollLoop_stops; [assumption|].
    intros st'. rewrite poll_timer. assumption.
  - apply pollLoop_stops; [assumption|].
    intros st'. rewrite poll_timer. assumption.
Qed.

(** C5 on four answers: running, cancelled, completed, running.  The loop
    stops at the third. *)
Lemma C5_poll_witness :
  Forall (fun a => forall st', snd (AppContext.poll a st') <> None)
    [AppContext.answer "running"; AppContext.answer "cancelled"]
  /\ snd (AppContext.poll (AppContext.answer "completed") AppContext.started) = None
  /\ snd (fst (AppContext.pollLoop
                 [AppContext.answer "running"; AppContext.answer "cancelled";
                  AppContext.answer "completed"; AppContext.answer "running"]
                 AppContext.started)) = 3%nat.
Proof.
  assert (H : Forall (fun a => forall st', snd (AppContext.poll a st') <> None)
                [AppContext.answer "running"; AppContext.answer "cancelled"]).
  { repeat constructor; intros st'; discriminate. }
  split; [exact H|]. split; [reflexivity|].
  exact (proj1 (proj2 (proj2 (C5_poll_stops_on_completed_or_failed
                  (AppContext.answer "completed") AppContext.started))
                [AppContext.answer "running"; AppContext.answer "cancelled"]
                [AppContext.answer "running"] H eq_refl)).
Defined.

(* ================================================================== *)
(** * Moving a lead on the board *)
(* ================================================================== *)

(** C6, as the claim states it: a move to perdido would be offered from
    every stage but perdido.  The card of a lead in curioso does not offer
    it. *)
Lemma C6_counterexample :
  let lead := Kanban.mkLead "5511988887777" "Ana" "Acme" "curioso" 1 in
  Kanban.offers lead "perdido" = false
  /\ Kanban.moveActions lead
     = [Kanban.moveLeadStatus "5511988887777" "reuniao_agendada"].
Proof. split; reflexivity. Qed.

Section MoveFacts.

(** Every button of the card asks for a move of the card's own lead, to
    one of the two targets. *)
Lemma moveActions_requests (lead : Kanban.KanbanLead) (r : Kanban.MoveRequest) :
  In r (Kanban.moveActions lead) ->
  Kanban.req_phone r = Kanban.phone lead
  /\ (Kanban.new_status r = "reuniao_agendada"
      \/ Kanban.new_status r = "perdido").
Proof.
  unfold Kanban.moveActions, Kanban.handleMove. intros H.
  apply in_app_or in H as [H|H].
  - destruct (negb _); simpl in H; [|contradiction].
    destruct H as [<-|[]]; simpl; auto.
  - destruct (_ && _); simpl in H; [|contradiction].
    destruct H as [<-|[]]; simpl; auto.
Qed.

End MoveFacts.

(** C6, amended.  The card offers the move to reuniao_agendada from every
    stage but reuniao_agendada itself, perdido included, and the move to
    perdido from every stage but perdido and curioso; a click sends the
    request for the lead's own phone, whatever its stage. *)
Theorem C6_move_actions (lead : Kanban.KanbanLead) :
  (Kanban.offers lead "reuniao_agendada" = true
   <-> Kanban.status lead <> "reuniao_agendada")
  /\ (Kanban.offers lead "perdido" = true
      <-> Kanban.status lead <> "perdido" /\ Kanban.status lead <> "curioso")
  /\ (Kanban.status lead = "perdido" ->
      Kanban.moveActions lead
      = [Kanban.moveLeadStatus (Kanban.phone lead) "reuniao_agendada"])
  /\ (forall r, In r (Kanban.moveActions lead) ->
                Kanban.req_phone r = Kanban.phone lead
                /\ (Kanban.new_status r = "reuniao_agendada"
                    \/ Kanban.new_status r = "perdido")).
Proof.
  split; [|split; [|split]].
  - unfold Kanban.offers, Kanban.moveActions, Kanban.handleMove.
    destruct (String.eqb_spec (Kanban.status lead) "reuniao_agendada") as [Hr|Hr];
      destruct (negb (String.eqb (Kanban.status lead) "perdido")
                && negb (String.eqb (Kanban.status lead) "curioso"));
      simpl; split; congruence.
  - unfold Kanban.offers, Kanban.moveActions, Kanban.handleMove.
    destruct (String.eqb (Kanban.status lead) "reuniao_agendada");
      destruct (String.eqb_spec (Kanban.status lead) "perdido") as [Hp|Hp];
      destruct (String.eqb_spec (Kanban.status lead) "curioso") as [Hc|Hc];
      simpl; split; try tauto; try congruence; intros [? ?]; congruence.
  - intros Hp. unfold Kanban.moveActions, Kanban.handleMove. now rewrite Hp.
  - apply moveActions_requests.
Qed.

(** C6 on a lead in perdido: the card offers the meeting and nothing
    else. *)
Lemma C6_move_actions_witness :
  let lead := Kanban.mkLead "5511988887777" "Ana" "Acme" "perdido" 0 in
  Kanban.status lead = "perdido"
  /\ Kanban.moveActions lead
     = [Kanban.moveLeadStatus "5511988887777" "reuniao_agendada"].
Proof.
  cbv zeta. split; [reflexivity|].
  exact (proj1 (proj2 (proj2 (C6_move_actions
           (Kanban.mkLead "5511988887777" "Ana" "Acme" "perdido" 0))))
         eq_refl).
Defined.

(* ================================================================== *)
(** * The WhatsApp number of a lead *)
(* ================================================================== *)

Section PhoneFacts.

Lemma stripNonDigits_allDigits (s : string) :
  JS.allDigits (JS.stripNonDigits s) = true.
Proof.
  induction s as [|c s IH]; simpl; [reflexivity|].
  destruct (JS.isDigit c) eqn:E; simpl; [now rewrite E|exact IH].
Qed.

(** Stripping keeps the digits in order and nothing else. *)
Lemma stripNonDigits_digits (s : string) :
  JS.allDigits s = true -> JS.stripNonDigits s = s.
Proof.
  induction s as [|c s IH]; simpl; [reflexivity|].
  intros H. apply andb_true_iff in H as [Hc Hs].
  now rewrite Hc, (IH Hs).
Qed.

Lemma whatsAppPhone_shape (t : string) :
  JS.allDigits (Pipeline.whatsAppPhone t) = true
  /\ JS.startsWith (Pipeline.whatsAppPhone t) "55" = true.
Proof.
  unfold Pipeline.whatsAppPhone.
  destruct (JS.startsWith (JS.stripNonDigits t) "55") eqn:E; simpl.
  - split; [apply stripNonDigits_allDigits|exact E].
  - split; [apply stripNonDigits_allDigits|reflexivity].
Qed.

End PhoneFacts.

(** C7, as the claim states it: a number left with fewer than 10 digits
    would be rejected.  [handleWhatsApp] opens the chat of 55123 for the
    telephone 123. *)
Lemma C7_counterexample :
  let lead := Pipeline.mkLead 1 "Acme" (Some "1-2-3") in
  Pipeline.handleWhatsApp lead = Some "https://wa.me/55123"
  /\ (String.length (Pipeline.whatsAppPhone "1-2-3") < 10)%nat.
Proof. cbv zeta. split; [reflexivity|]. simpl. lia. Qed.

(** C7, amended.  For every lead with a telephone that is not empty,
    [handleWhatsApp] strips the characters that are not digits, prepends
    55 unless the digits already start with 55, and opens the chat of that
    number, however few digits it has; without a telephone it opens
    nothing. *)
Theorem C7_handleWhatsApp_normalization (lead : Pipeline.Lead) (t : string) :
  Pipeline.telefone lead = Some t ->
  t <> "" ->
  let digits := JS.stripNonDigits t in
  let phone := if JS.startsWith digits "55" then digits else "55" ++ digits in
  Pipeline.handleWhatsApp lead = Some ("https://wa.me/" ++ phone)
  /\ JS.allDigits phone = true
  /\ JS.startsWith phone "55" = true
  /\ (forall other, Pipeline.telefone other = None
                    \/ Pipeline.telefone other = Some "" ->
                    Pipeline.handleWhatsApp other = None).
Proof.
  intros Ht Hne; cbv zeta.
  pose proof (whatsAppPhone_shape t) as [Hd Hp].
  unfold Pipeline.whatsAppPhone in Hd, Hp.
  unfold Pipeline.handleWhatsApp. rewrite Ht.
  assert (Htruthy : JS.truthy (Some t) = true).
  { simpl. destruct (String.eqb_spec t ""); [contradiction|reflexivity]. }
  rewrite Htruthy. unfold Pipeline.whatsAppPhone.
  destruct (JS.startsWith (JS.stripNonDigits t) "55") eqn:E; simpl negb; cbv iota;
    repeat split; auto;
    intros other [Ho|Ho]; rewrite Ho; reflexivity.
Qed.

(** C7 on a telephone written with brackets, a space and a dash. *)
Lemma C7_handleWhatsApp_witness :
  let lead := Pipeline.mkLead 7 "Acme" (Some "(11) 98888-7777") in
  Pipeline.telefone lead = Some "(11) 98888-7777"
  /\ "(11) 98888-7777" <> ""
  /\ Pipeline.handleWhatsApp lead = Some "https://wa.me/5511988887777".
Proof.
  cbv zeta. split; [reflexivity|]. split; [discriminate|].
  exact (proj1 (C7_handleWhatsApp_normalization
                  (Pipeline.mkLead 7 "Acme" (Some "(11) 98888-7777"))
                  "(11) 98888-7777" eq_refl
                  ltac:(discriminate))).
Defined.

(* ================================================================== *)
(** * One record per phone and campaign *)
(* ================================================================== *)

Section SendLogFacts.

Import ReactivationLog.

Lemma filter_none {A : Type} (f : A -> bool) (l : list A) :
  existsb f l = false -> filter f l = [].
Proof.
  induction l as [|x l IH]; simpl; [reflexivity|].
  intros H. apply orb_false_iff in H as [Hx Hl]. now rewrite Hx, IH.
Qed.

Lemma clashes_same_key (p p' c' : string) (c : option string) (r : Row) :
  clashes p' (Some c') r = true ->
  phone r = p -> campaign_id r = c ->
  p = p' /\ c = Some c'.
Proof.
  unfold clashes. intros H <- <-.
  apply andb_true_iff in H as [Hp Hc].
  apply String.eqb_eq in Hp.
  destruct (campaign_id r) as [y|]; [|discriminate].
  apply String.eqb_eq in Hc. now subst.
Qed.

(** Under [UNIQUE(phone, campaign_id)] an insert keeps at most one row
    per pair. *)
Lemma insert_unique (v : Values) (t t' : Table) :
  unique_phone_campaign (def t) = true ->
  (forall p c, List.length (records p c t) <= 1)%nat ->
  insert v t = Some t' ->
  unique_phone_campaign (def t') = true
  /\ (forall p c, List.length (records p c t') <= 1)%nat.
Proof.
  intros Hu Hinv. unfold insert.
  destruct (v_phone v) as [p|]; [|discriminate].
  assert (Hins :
    (if unique_phone_campaign (def t)
        && existsb (clashes p (v_campaign_id v)) (rows t)
     then None
     else Some {| def := def t; next_id := S (next_id t);
                  rows := rows t ++
                    [ {| id := next_id t; phone := p;
                         campaign_id := v_campaign_id v;
                         status := match v_status v with
                                   | Some s => s
                                   | None => status_default (def t)
                                   end;
                         error := None |} ] |}) = Some t' ->
    unique_phone_campaign (def t') = true
    /\ (forall p0 c0, List.length (records p0 c0 t') <= 1)%nat).
  { rewrite Hu; simpl.
    destruct (existsb (clashes p (v_campaign_id v)) (rows t)) eqn:E;
      [discriminate|].
    intros [= <-]; simpl. split; [exact Hu|].
    intros p0 c0. unfold records; simpl.
    rewrite filter_app, List.length_app; simpl.
    destruct (clashes p0 (Some c0) _) eqn:F; simpl.
    - destruct (clashes_same_key p p0 c0 (v_campaign_id v) _ F eq_refl eq_refl)
        as [-> Hc].
      rewrite Hc in E. now rewrite (filter_none _ _ E).
    - specialize (Hinv p0 c0). unfold records in Hinv. lia. }
  destruct (v_campaign_id v) as [c|]; [exact Hins|].
  destruct (campaign_id_not_null (def t)); [discriminate|exact Hins].
Qed.

Lemma insert_all_unique (vs : list Values) :
  forall t : Table,
    unique_phone_campaign (def t) = true ->
    (forall p c, List.length (records p c t) <= 1)%nat ->
    forall p c, (List.length (records p c (insert_all vs t)) <= 1)%nat.
Proof.
  induction vs as [|v vs IH]; intros t Hu Hinv; simpl; [exact Hinv|].
  destruct (insert v t) as [t'|] eqn:E.
  - destruct (insert_unique v t t' Hu Hinv E) as [Hu' Hinv'].
    now apply IH.
  - now apply IH.
Qed.

(** On the table of database/migration_reactivation_log.sql no run of
    inserts leaves two rows for one phone and campaign. *)
Lemma migration_one_record_per_pair
    (later : list TableDef) (t : Table) (vs : list Values) (p c : string) :
  run_scripts (migration_reactivation_log :: later) = Some t ->
  (List.length (records p c (insert_all vs t)) <= 1)%nat.
Proof.
  unfold run_scripts; simpl.
  assert (Hkeep : forall ds t0,
            fold_left (fun db d => create_table_if_not_exists d db) ds (Some t0)
            = Some t0).
  { induction ds as [|d ds IH]; intros t0; simpl; auto. }
  rewrite Hkeep. intros [= <-].
  apply insert_all_unique; simpl; auto.
Qed.

End SendLogFacts.

(** C8.  The store should hold one record per phone and campaign, by a
    constraint of its own.  The table of
    database/migration_reactivation_log.sql has it
    ([migration_one_record_per_pair]); the other script creates the same
    table without it, and [CREATE TABLE IF NOT EXISTS] then leaves the
    migration without effect: the same phone is recorded twice in one
    campaign. *)
Theorem C8_duplicate_records_after_leads_script :
  let db := ReactivationLog.run_scripts
              [ReactivationLog.reactivation_leads_script;
               ReactivationLog.migration_reactivation_log] in
  let v := ReactivationLog.mkValues (Some "5511988887777") (Some "camp-1") None in
  exists t,
    db = Some t
    /\ ReactivationLog.unique_phone_campaign (ReactivationLog.def t) = false
    /\ List.length (ReactivationLog.records "5511988887777" "camp-1"
                      (ReactivationLog.insert_all [v; v] t)) = 2%nat.
Proof. cbv zeta. eexists. repeat split; reflexivity. Qed.

(* ================================================================== *)
(** * Further properties of the code *)
(* ================================================================== *)

(** X1.  In ManualProspecting.tsx a template that holds one placeholder
    between texts without brackets or braces is rendered as those texts
    around the value of the placeholder, which is the fallback (Amigo,
    crescer o negocio, or nothing) when the lead lacks the field; this
    holds whenever the value itself has no bracket, brace or dollar. *)
Theorem X1_manual_formatMessage_one_placeholder
    (pre post placeholder value : string) (lead : ManualProspecting.Lead) :
  In (placeholder, value) (ManualProspecting.substitutions lead) ->
  ManualProspecting.plain pre = true ->
  ManualProspecting.plain post = true ->
  ManualProspecting.plain value = true ->
  JS.includesChar value "$" = false ->
  ManualProspecting.formatMessage (pre ++ placeholder ++ post) lead
  = pre ++ value ++ post.
Proof. apply manual_formatMessage_single. Qed.

(** X1 on a greeting for a lead without a name. *)
Lemma X1_manual_formatMessage_witness :
  let lead := ManualProspecting.mkLead None "5511988887777" None None None in
  In ("{name}", "Amigo") (ManualProspecting.substitutions lead)
  /\ ManualProspecting.plain "Oi " = true
  /\ ManualProspecting.plain ", tudo bem?" = true
  /\ ManualProspecting.plain "Amigo" = true
  /\ JS.includesChar "Amigo" "$" = false
  /\ ManualProspecting.formatMessage ("Oi " ++ "{name}" ++ ", tudo bem?") lead
     = "Oi " ++ "Amigo" ++ ", tudo bem?".
Proof.
  cbv zeta.
  assert (H : In ("{name}", "Amigo")
                (ManualProspecting.substitutions
                   (ManualProspecting.mkLead None "5511988887777" None None None)))
    by (cbn; auto).
  split; [exact H|]. repeat (split; [reflexivity|]).
  exact (X1_manual_formatMessage_one_placeholder "Oi " ", tudo bem?" "{name}"
           "Amigo" _ H eq_refl eq_refl eq_refl eq_refl).
Defined.

(** X2.  Where the two components render alike: on a template with one
    placeholder between texts without brackets or braces, and a lead whose
    name and notes are not empty and whose values have no bracket, brace
    or dollar, the [formatMessage] of ReactivationCampaign.tsx and the one
    of ManualProspecting.tsx give the same text. *)
Theorem X2_formatMessage_agree_one_placeholder
    (pre post placeholder : string) (lead : ReactivationCampaign.ReactivationLead) :
  In placeholder ManualProspecting.placeholders ->
  ManualProspecting.plain pre = true ->
  ManualProspecting.plain post = true ->
  ReactivationCampaign.name lead <> "" ->
  ReactivationCampaign.notes lead <> "" ->
  (forall v, In v [ReactivationCampaign.name lead;
                   ReactivationCampaign.notes lead;
                   JS.or_string (ReactivationCampaign.company lead) ""] ->
             ManualProspecting.plain v = true /\ JS.includesChar v "$" = false) ->
  ReactivationCampaign.formatMessage (pre ++ placeholder ++ post) lead
  = ManualProspecting.formatMessage (pre ++ placeholder ++ post)
      (ReactivationCampaign.asLead lead).
Proof. apply formatMessage_agree_single. Qed.

(** X2 on a message about the notes of a lead. *)
Lemma X2_formatMessage_agree_witness :
  let lead := ReactivationCampaign.mkLead "Ana" "5511988887777" "vender mais"
                None None in
  In "[NOTES]" ManualProspecting.placeholders
  /\ ReactivationCampaign.name lead <> ""
  /\ ReactivationCampaign.notes lead <> ""
  /\ ReactivationCampaign.formatMessage ("Quer " ++ "[NOTES]" ++ "?") lead
     = ManualProspecting.formatMessage ("Quer " ++ "[NOTES]" ++ "?")
         (ReactivationCampaign.asLead lead).
Proof.
  cbv zeta.
  assert (H : In "[NOTES]" ManualProspecting.placeholders) by (cbn; auto).
  split; [exact H|]. split; [discriminate|]. split; [discriminate|].
  apply (X2_formatMessage_agree_one_placeholder "Quer " "?" "[NOTES]"
           (ReactivationCampaign.mkLead "Ana" "5511988887777" "vender mais"
              None None) H eq_refl eq_refl);
    [discriminate|discriminate|].
  intros v [<-|[<-|[<-|[]]]]; split; reflexivity.
Defined.

(** X3.  When database/migration_reactivation_log.sql is the first script
    to create reactivation_log, no run of inserts, accepted or rejected,
    leaves two rows for the same phone in the same campaign, whatever
    scripts run after it. *)
Theorem X3_migration_first_one_record_per_pair
    (later : list ReactivationLog.TableDef) (t : ReactivationLog.Table)
    (inserts : list ReactivationLog.Values) (phone campaign : string) :
  ReactivationLog.run_scripts (ReactivationLog.migration_reactivation_log :: later)
  = Some t ->
  (List.length (ReactivationLog.records phone campaign
                  (ReactivationLog.insert_all inserts t)) <= 1)%nat.
Proof. apply migration_one_record_per_pair. Qed.

(** X3 on the same insert made twice. *)
Lemma X3_migration_first_witness :
  let v := ReactivationLog.mkValues (Some "5511988887777") (Some "camp-1") None in
  let t := ReactivationLog.mkTable ReactivationLog.migration_reactivation_log 1 [] in
  ReactivationLog.run_scripts
    [ReactivationLog.migration_reactivation_log;
     ReactivationLog.reactivation_leads_script] = Some t
  /\ (List.length (ReactivationLog.records "5511988887777" "camp-1"
                     (ReactivationLog.insert_all [v; v] t)) <= 1)%nat.
Proof.
  cbv zeta. split; [reflexivity|].
  exact (X3_migration_first_one_record_per_pair
           [ReactivationLog.reactivation_leads_script]
           (ReactivationLog.mkTable ReactivationLog.migration_reactivation_log 1 [])
           [ReactivationLog.mkValues (Some "5511988887777") (Some "camp-1") None;
            ReactivationLog.mkValues (Some "5511988887777") (Some "camp-1") None]
           "5511988887777" "camp-1" eq_refl).
Defined.

(** X4.  The number that [handleWhatsApp] builds is in its final form:
    building it again from its own result changes nothing, because the
    result is made of digits and starts with 55. *)
Theorem X4_whatsAppPhone_idempotent (telefone : string) :
  Pipeline.whatsAppPhone (Pipeline.whatsAppPhone telefone)
  = Pipeline.whatsAppPhone telefone.
Proof.
  destruct (whatsAppPhone_shape telefone) as [Hd Hp].
  unfold Pipeline.whatsAppPhone at 1.
  rewrite (stripNonDigits_digits _ Hd), Hp. reflexivity.
Qed.

(* ================================================================== *)
(** * Numbers as text *)
(* ================================================================== *)

Section NumberText.

Local Open Scope Z_scope.

Lemma decimalValue_app (x y : string) :
  forall a : Z, JS.decimalValue a (x ++ y) = JS.decimalValue (JS.decimalValue a x) y.
Proof. induction x as [|c x IH]; intros a; simpl; auto. Qed.

Lemma allDigits_app (x y : string) :
  JS.allDigits (x ++ y) = JS.allDigits x && JS.allDigits y.
Proof.
  induction x as [|c x IH]; simpl; [reflexivity|].
  now rewrite IH, andb_assoc.
Qed.

Lemma digitChar_spec (d : Z) :
  0 <= d < 10 ->
  JS.isDigit (JS.digitChar d) = true /\ JS.digitValue (JS.digitChar d) = d.
Proof.
  intros H.
  assert (C : d = 0 \/ d = 1 \/ d = 2 \/ d = 3 \/ d = 4 \/ d = 5 \/ d = 6
              \/ d = 7 \/ d = 8 \/ d = 9) by lia.
  repeat (destruct C as [->|C]; [split; reflexivity|]).
  subst; split; reflexivity.
Qed.

Lemma digitsOf_allDigits (fuel : nat) :
  forall n, 0 <= n -> JS.allDigits (JS.digitsOf fuel n) = true.
Proof.
  induction fuel as [|f IH]; intros n Hn; cbn [JS.digitsOf]; [reflexivity|].
  rewrite allDigits_app. cbn [JS.allDigits].
  destruct (digitChar_spec (n mod 10)) as [Hd _];
    [apply Z.mod_pos_bound; lia|].
  rewrite Hd. cbn [andb]. rewrite andb_true_r.
  destruct (n <? 10); [reflexivity|].
  apply IH. apply Z.div_pos; lia.
Qed.

(** With enough fuel the digits are those of [n]. *)
Lemma digitsOf_value (fuel : nat) :
  forall n, 0 <= n < 2 ^ Z.of_nat fuel ->
            JS.decimalValue 0 (JS.digitsOf fuel n) = n.
Proof.
  induction fuel as [|f IH]; intros n Hn.
  - cbn [JS.digitsOf JS.decimalValue]. change (2 ^ Z.of_nat 0) with 1 in Hn. lia.
  - cbn [JS.digitsOf]. rewrite decimalValue_app. cbn [JS.decimalValue].
    destruct (digitChar_spec (n mod 10)) as [_ Hv];
      [apply Z.mod_pos_bound; lia|].
    rewrite Hv.
    destruct (Z.ltb_spec n 10) as [Hs|Hb].
    + cbn [JS.decimalValue]. rewrite Z.mod_small by lia. lia.
    + rewrite IH.
      * pose proof (Z.div_mod n 10 ltac:(lia)). lia.
      * rewrite Nat2Z.inj_succ, Z.pow_succ_r in Hn by lia.
        split; [apply Z.div_pos; lia|].
        apply Z.div_lt_upper_bound; lia.
Qed.

Lemma toString_fuel (n : Z) : 0 <= n -> n < 2 ^ Z.of_nat (S (Z.to_nat (Z.log2 n))).
Proof.
  intros Hn. rewrite Nat2Z.inj_succ, Z2Nat.id by apply Z.log2_nonneg.
  destruct (Z.eq_dec n 0) as [->|Hz]; [reflexivity|].
  apply Z.log2_spec. lia.
Qed.

(** The text of a number that is not negative is made of digits, and
    reads back as the number. *)
Lemma toString_nonneg (n : Z) :
  0 <= n ->
  JS.allDigits (JS.toString n) = true
  /\ JS.decimalValue 0 (JS.toString n) = n.
Proof.
  intros Hn. unfold JS.toString.
  destruct (Z.ltb_spec n 0) as [Hneg|_]; [lia|].
  split; [now apply digitsOf_allDigits|].
  apply digitsOf_value. split; [assumption|now apply toString_fuel].
Qed.




(** The value of [x] bounds its length from below. *)
Lemma decimalValue_bound (x : string) :
  JS.allDigits x = true ->
  forall a, 0 <= a ->
    a * 10 ^ Z.of_nat (String.length x) <= JS.decimalValue a x
    < (a + 1) * 10 ^ Z.of_nat (String.length x).
Proof.
  induction x as [|c x IH]; intros Hx a Ha.
  - simpl. lia.
  - simpl in Hx. apply andb_true_iff in Hx as [Hc Hx].
    cbn [JS.decimalValue String.length].
    rewrite Nat2Z.inj_succ, Z.pow_succ_r by lia.
    assert (Hd : 0 <= JS.digitValue c <= 9).
    { unfold JS.isDigit in Hc. apply andb_true_iff in Hc as [H1 H2].
      apply Nat.leb_le in H1, H2. unfold JS.digitValue. lia. }
    specialize (IH Hx (10 * a + JS.digitValue c) ltac:(lia)).
    assert (0 < 10 ^ Z.of_nat (String.length x)) by (apply Z.pow_pos_nonneg; lia).
    nia.
Qed.

Lemma string_length_repeat (k : nat) (c : ascii) :
  String.length (JS.repeatChar k c) = k.
Proof. induction k; simpl; auto. Qed.

Lemma padStart_length (s : string) (k : nat) (c : ascii) :
  String.length (JS.padStart s k c) = Nat.max k (String.length s).
Proof.
  unfold JS.padStart. rewrite string_length_app, string_length_repeat. lia.
Qed.

(** The digits have no leading zero, but for zero itself. *)
Lemma digitsOf_length_lower (fuel : nat) :
  forall n, 0 <= n ->
    10 ^ Z.of_nat (String.length (JS.digitsOf fuel n)) <= 10 * Z.max n 1.
Proof.
  induction fuel as [|f IH]; intros n Hn; cbn [JS.digitsOf].
  - change (10 ^ Z.of_nat (String.length "")) with 1. lia.
  - rewrite string_length_app. cbn [String.length].
    rewrite Nat.add_1_r, Nat2Z.inj_succ, Z.pow_succ_r by lia.
    destruct (Z.ltb_spec n 10) as [Hs|Hb].
    + change (10 ^ Z.of_nat (String.length "")) with 1. lia.
    + specialize (IH (n / 10) ltac:(apply Z.div_pos; lia)).
      pose proof (Z.div_mod n 10 ltac:(lia)).
      pose proof (Z.mod_pos_bound n 10 ltac:(lia)).
      assert (1 <= n / 10) by (apply Z.div_le_lower_bound; lia).
      lia.
Qed.

(** A number that is not negative has at most [k] digits exactly when it
    is below [10 ^ k]. *)
Lemma toString_length (n : Z) (k : nat) :
  0 <= n -> (0 < k)%nat ->
  ((String.length (JS.toString n) <= k)%nat <-> n < 10 ^ Z.of_nat k).
Proof.
  intros Hn Hk. destruct (toString_nonneg n Hn) as [Hd Hv].
  pose proof (decimalValue_bound _ Hd 0 ltac:(lia)) as Hb. rewrite Hv in Hb.
  split.
  - intros Hl.
    assert (10 ^ Z.of_nat (String.length (JS.toString n)) <= 10 ^ Z.of_nat k)
      by (apply Z.pow_le_mono_r; lia).
    lia.
  - intros Hlt.
    destruct (Nat.le_gt_cases (String.length (JS.toString n)) k) as [|Hgt];
      [assumption|exfalso].
    assert (Hlow : 10 ^ Z.of_nat (String.length (JS.toString n)) <= 10 * Z.max n 1).
    { unfold JS.toString. destruct (Z.ltb_spec n 0); [lia|].
      now apply digitsOf_length_lower. }
    assert (Hk10 : 10 <= 10 ^ Z.of_nat k).
    { change 10 with (10 ^ 1) at 1. apply Z.pow_le_mono_r; lia. }
    assert (Hmono : 10 ^ Z.of_nat (S k)
                    <= 10 ^ Z.of_nat (String.length (JS.toString n)))
      by (apply Z.pow_le_mono_r; lia).
    rewrite Nat2Z.inj_succ, Z.pow_succ_r in Hmono by lia.
    lia.
Qed.

End NumberText.

(* ================================================================== *)
(** * The duration of a call *)
(* ================================================================== *)

Section DurationFacts.

Local Open Scope Z_scope.


(** The two halves of a label, for seconds that are not negative. *)
Lemma formatDuration_parts (seconds : Z) :
  0 <= seconds ->
  LiveCallCard.formatDuration seconds
  = JS.padStart (JS.toString (seconds / 60)) 2 "0" ++ ":"
      ++ JS.padStart (JS.toString (seconds mod 60)) 2 "0".
Proof.
  intros H. unfold LiveCallCard.formatDuration. cbv zeta.
  now rewrite Z.rem_mod_nonneg by lia.
Qed.

End DurationFacts.



(** X6.  The label has the five characters of MM:SS exactly for calls
    shorter than 100 minutes; from 6000 seconds on the minutes take more
    room and nothing is cut. *)
Theorem X6_formatDuration_width (seconds : Z) :
  (0 <= seconds)%Z ->
  (String.length (LiveCallCard.formatDuration seconds) = 5%nat
   <-> (seconds < 6000)%Z)
  /\ (5 <= String.length (LiveCallCard.formatDuration seconds))%nat.
Proof.
  intros Hs. rewrite (formatDuration_parts seconds Hs).
  rewrite !string_length_app, !padStart_length. cbn [String.length].
  assert (Hm : (0 <= seconds / 60)%Z) by (apply Z.div_pos; lia).
  pose proof (Z.mod_pos_bound seconds 60 ltac:(lia)) as Hr.
  pose proof (proj2 (toString_length (seconds mod 60) 2 ltac:(lia) ltac:(lia))
                ltac:(change (10 ^ Z.of_nat 2)%Z with 100%Z; lia)) as Hsec.
  pose proof (toString_length (seconds / 60) 2 Hm ltac:(lia)) as Hmin.
  change (10 ^ Z.of_nat 2)%Z with 100%Z in Hmin.
  assert (Hdiv : (seconds / 60 < 100 <-> seconds < 6000)%Z).
  { pose proof (Z.div_mod seconds 60 ltac:(lia)). lia. }
  split; [split; intros H|]; lia.
Qed.

(** X6 at 59 minutes and 59 seconds. *)
Lemma X6_formatDuration_witness :
  (0 <= 3599)%Z /\ String.length (LiveCallCard.formatDuration 3599) = 5%nat.
Proof.
  split; [lia|].
  apply (proj1 (X6_formatDuration_width 3599 ltac:(lia))). reflexivity.
Defined.

(* ================================================================== *)
(** * The lead card: telephone, first message and site *)
(* ================================================================== *)

Section SliceFacts.

Lemma take_drop (n : nat) (s : string) : JS.take n s ++ JS.drop n s = s.
Proof.
  revert s; induction n as [|n IH]; intros s; [reflexivity|].
  destruct s as [|c s]; [reflexivity|]. simpl. now rewrite IH.
Qed.

Lemma drop_drop (m n : nat) (s : string) :
  JS.drop n (JS.drop m s) = JS.drop (m + n) s.
Proof.
  revert s; induction m as [|m IH]; intros s; [reflexivity|].
  destruct s as [|c s]; simpl; [now destruct n|apply IH].
Qed.

Lemma length_drop (n : nat) (s : string) :
  String.length (JS.drop n s) = (String.length s - n)%nat.
Proof.
  revert s; induction n as [|n IH]; intros s; simpl; [lia|].
  destruct s as [|c s]; simpl; auto.
Qed.

Lemma length_take (n : nat) (s : string) :
  String.length (JS.take n s) = Nat.min n (String.length s).
Proof.
  revert s; induction n as [|n IH]; intros s; [reflexivity|].
  destruct s as [|c s]; simpl; auto.
Qed.

Lemma allDigits_drop (n : nat) (s : string) :
  JS.allDigits s = true -> JS.allDigits (JS.drop n s) = true.
Proof.
  revert s; induction n as [|n IH]; intros s H; [exact H|].
  destruct s as [|c s]; [reflexivity|].
  simpl in H. apply andb_true_iff in H as [_ H]. now apply IH.
Qed.

Lemma allDigits_take (n : nat) (s : string) :
  JS.allDigits s = true -> JS.allDigits (JS.take n s) = true.
Proof.
  revert s; induction n as [|n IH]; intros s H; [reflexivity|].
  destruct s as [|c s]; [reflexivity|].
  simpl in H. apply andb_true_iff in H as [Hc H].
  simpl. now rewrite Hc, IH.
Qed.

Lemma stripNonDigits_app (a b : string) :
  JS.stripNonDigits (a ++ b) = JS.stripNonDigits a ++ JS.stripNonDigits b.
Proof.
  induction a as [|c a IH]; [reflexivity|].
  simpl. destruct (JS.isDigit c); simpl; now rewrite IH.
Qed.


Lemma takeLast_all (n : nat) (s : string) :
  (String.length s <= n)%nat -> JS.takeLast n s = s.
Proof.
  intros H. unfold JS.takeLast.
  now replace (String.length s - n)%nat with 0%nat by lia.
Qed.

(** The mask of [formatPhone] around eleven digits, and what is left of
    it without the mask. *)
Lemma phone_mask (clean : string) :
  JS.allDigits clean = true ->
  String.length clean = 11%nat ->
  let shown := "(" ++ JS.take 2 clean ++ ") " ++ JS.take 5 (JS.drop 2 clean)
                   ++ "-" ++ JS.drop 7 clean in
  JS.stripNonDigits shown = clean /\ String.length shown = 15%nat.
Proof.
  intros Hd Hl shown. subst shown. split.
  - change (JS.stripNonDigits
              (JS.take 2 clean ++ ") " ++ JS.take 5 (JS.drop 2 clean)
                 ++ "-" ++ JS.drop 7 clean) = clean).
    rewrite stripNonDigits_app.
    change (JS.stripNonDigits
              (") " ++ JS.take 5 (JS.drop 2 clean) ++ "-" ++ JS.drop 7 clean))
      with (JS.stripNonDigits
              (JS.take 5 (JS.drop 2 clean) ++ "-" ++ JS.drop 7 clean)).
    rewrite stripNonDigits_app.
    change (JS.stripNonDigits ("-" ++ JS.drop 7 clean))
      with (JS.stripNonDigits (JS.drop 7 clean)).
    rewrite !stripNonDigits_digits
      by auto using allDigits_take, allDigits_drop.
    change 7%nat with (2 + 5)%nat. rewrite <- (drop_drop 2 5 clean).
    now rewrite take_drop, take_drop.
  - rewrite !string_length_app, !length_take, !length_drop, Hl. reflexivity.
Qed.

(** [formatPhone] on a telephone that is there. *)
Lemma formatPhone_unfold (p : string) :
  p <> "" ->
  LeadCard.formatPhone (Some p)
  = let clean := JS.takeLast 11 (JS.stripNonDigits p) in
    if (String.length clean =? 11)%nat then
      "(" ++ JS.take 2 clean ++ ") " ++ JS.take 5 (JS.drop 2 clean)
          ++ "-" ++ JS.drop 7 clean
    else p.
Proof.
  intros Hp. unfold LeadCard.formatPhone.
  assert (Tp : JS.truthy (Some p) = true).
  { simpl. now destruct (String.eqb_spec p ""). }
  now rewrite Tp.
Qed.

End SliceFacts.

(** X7.  [formatPhone] is idempotent: a telephone that the card has
    formatted is shown the same when it is formatted again, whether it
    was masked, left as it was, or missing. *)
Theorem X7_formatPhone_idempotent (phone : option string) :
  LeadCard.formatPhone (Some (LeadCard.formatPhone phone))
  = LeadCard.formatPhone phone.
Proof.
  destruct phone as [p|]; [|reflexivity].
  destruct (String.eqb_spec p "") as [->|Hp]; [reflexivity|].
  rewrite (formatPhone_unfold p Hp). cbv zeta.
  destruct (Nat.eqb_spec (String.length (JS.takeLast 11 (JS.stripNonDigits p))) 11)
    as [Hl|Hl].
  - set (clean := JS.takeLast 11 (JS.stripNonDigits p)) in *.
    assert (Hd : JS.allDigits clean = true).
    { apply allDigits_drop, stripNonDigits_allDigits. }
    destruct (phone_mask clean Hd Hl) as [Hs _]. cbv zeta in Hs.
    rewrite formatPhone_unfold by (cbn [append]; discriminate). cbv zeta.
    rewrite Hs, (takeLast_all 11 clean) by lia.
    now rewrite Hl.
  - rewrite (formatPhone_unfold p Hp). cbv zeta.
    now destruct (Nat.eqb_spec (String.length (JS.takeLast 11 (JS.stripNonDigits p))) 11).
Qed.



Section FirstMessageFacts.


End FirstMessageFacts.

(** X9.  For a company name without a dollar sign, the message that
    [openWhatsAppModal] proposes is the default text with the name where
    the placeholder stood, whatever else the name contains. *)
Theorem X9_openWhatsAppModal_message (nome_empresa : string) :
  JS.includesChar nome_empresa "$" = false ->
  LeadCard.openWhatsAppModal nome_empresa
  = "Ola! Notei que a " ++ nome_empresa ++ " tem boas avaliacoes no Google."
      ++ LeadCard.lf ++ LeadCard.lf
      ++ "Estou entrando em contato porque trabalho ajudando empresas como a sua a aumentar a presenca digital e atrair mais clientes."
      ++ LeadCard.lf ++ LeadCard.lf
      ++ "Posso te mostrar como outras empresas do segmento estao conseguindo mais visibilidade online?".
Proof.
  intros H. unfold LeadCard.openWhatsAppModal.
  set (post := " tem boas avaliacoes no Google."
      ++ LeadCard.lf ++ LeadCard.lf
      ++ "Estou entrando em contato porque trabalho ajudando empresas como a sua a aumentar a presenca digital e atrair mais clientes."
      ++ LeadCard.lf ++ LeadCard.lf
      ++ "Posso te mostrar como outras empresas do segmento estao conseguindo mais visibilidade online?").
  change LeadCard.DEFAULT_MESSAGE_TEMPLATE
    with ("Ola! Notei que a " ++ "{nome_empresa}" ++ post).
  rewrite (replace_single "{" "nome_empresa}" "Ola! Notei que a " post
             nome_empresa eq_refl).
  now rewrite GetSubstitution_plain.
Qed.

(** X9 for a company called Locadora Silva. *)
Lemma X9_openWhatsAppModal_witness :
  JS.includesChar "Locadora Silva" "$" = false
  /\ JS.startsWith (LeadCard.openWhatsAppModal "Locadora Silva")
       "Ola! Notei que a Locadora Silva tem boas avaliacoes no Google." = true.
Proof.
  split; [reflexivity|].
  rewrite (X9_openWhatsAppModal_message "Locadora Silva" eq_refl).
  reflexivity.
Defined.



(* ================================================================== *)
(** * The lead card of the board: age and progress *)
(* ================================================================== *)

Section AgeFacts.

Local Open Scope Z_scope.

(** [timeAgo] on a date that is there and is a date. *)
Lemma timeAgo_unfold (now : Z) (getTime : string -> option Z) (d : string) (t : Z) :
  d <> "" -> getTime d = Some t ->
  Kanban.timeAgo now getTime (Some d)
  = if (now - t) / 60000 <? 60 then JS.toString ((now - t) / 60000) ++ "min"
    else if (now - t) / 3600000 <? 24 then JS.toString ((now - t) / 3600000) ++ "h"
    else JS.toString ((now - t) / 86400000) ++ "d".
Proof.
  intros Hd Ht. unfold Kanban.timeAgo.
  assert (Td : JS.truthy (Some d) = true).
  { cbn [JS.truthy]. now destruct (String.eqb_spec d ""). }
  rewrite Td, Ht. cbn [negb]. cbv zeta.
  rewrite !Z.div_div by lia.
  reflexivity.
Qed.

End AgeFacts.

(** X11.  For a date in the past, [timeAgo] shows whole minutes below an
    hour, whole hours from one hour to a day, and whole days from one day
    on; the number shown is never more than the time that has passed, and
    less than one unit short of it. *)
Theorem X11_timeAgo_past
    (now : Z) (getTime : string -> option Z) (d : string) (t : Z) :
  d <> "" -> getTime d = Some t -> (t <= now)%Z ->
  exists (n unit : Z) (suffix : string),
    Kanban.timeAgo now getTime (Some d) = JS.toString n ++ suffix
    /\ (unit * n <= now - t < unit * (n + 1))%Z
    /\ ((suffix = "min" /\ unit = 60000%Z /\ (0 <= n < 60)%Z)
        \/ (suffix = "h" /\ unit = 3600000%Z /\ (1 <= n < 24)%Z)
        \/ (suffix = "d" /\ unit = 86400000%Z /\ (1 <= n)%Z)).
Proof.
  intros Hd Ht Hpast. rewrite (timeAgo_unfold now getTime d t Hd Ht).
  pose proof (Z.div_mod (now - t) 60000 ltac:(lia)) as M1.
  pose proof (Z.mod_pos_bound (now - t) 60000 ltac:(lia)) as M2.
  pose proof (Z.div_mod (now - t) 3600000 ltac:(lia)) as H1.
  pose proof (Z.mod_pos_bound (now - t) 3600000 ltac:(lia)) as H2.
  pose proof (Z.div_mod (now - t) 86400000 ltac:(lia)) as D1.
  pose proof (Z.mod_pos_bound (now - t) 86400000 ltac:(lia)) as D2.
  destruct (Z.ltb_spec ((now - t) / 60000) 60) as [Hm|Hm].
  - exists ((now - t) / 60000)%Z, 60000%Z, "min".
    split; [reflexivity|]. split; [lia|]. left. repeat split; lia.
  - destruct (Z.ltb_spec ((now - t) / 3600000) 24) as [Hh|Hh].
    + exists ((now - t) / 3600000)%Z, 3600000%Z, "h".
      split; [reflexivity|]. split; [lia|]. right; left. repeat split; lia.
    + exists ((now - t) / 86400000)%Z, 86400000%Z, "d".
      split; [reflexivity|]. split; [lia|]. right; right. repeat split; lia.
Qed.

(** X11 for a lead updated ninety minutes ago. *)
Lemma X11_timeAgo_witness :
  "2026-01-01T10:00:00Z" <> ""
  /\ (fun _ : string => Some 1000000%Z) "2026-01-01T10:00:00Z" = Some 1000000%Z
  /\ (1000000 <= 6400000)%Z
  /\ exists (n unit : Z) (suffix : string),
       Kanban.timeAgo 6400000 (fun _ => Some 1000000%Z)
         (Some "2026-01-01T10:00:00Z") = JS.toString n ++ suffix
       /\ (unit * n <= 6400000 - 1000000 < unit * (n + 1))%Z
       /\ ((suffix = "min" /\ unit = 60000%Z /\ (0 <= n < 60)%Z)
           \/ (suffix = "h" /\ unit = 3600000%Z /\ (1 <= n < 24)%Z)
           \/ (suffix = "d" /\ unit = 86400000%Z /\ (1 <= n)%Z)).
Proof.
  split; [discriminate|]. split; [reflexivity|]. split; [lia|].
  exact (X11_timeAgo_past 6400000 (fun _ => Some 1000000%Z)
           "2026-01-01T10:00:00Z" 1000000 ltac:(discriminate) eq_refl
           ltac:(lia)).
Defined.

(** X12.  For a date ahead of the clock, [timeAgo] never changes unit:
    however far ahead the date is, the card shows a negative number of
    minutes. *)
Theorem X12_timeAgo_future
    (now : Z) (getTime : string -> option Z) (d : string) (t : Z) :
  d <> "" -> getTime d = Some t -> (now < t)%Z ->
  Kanban.timeAgo now getTime (Some d)
  = JS.toString ((now - t) / 60000) ++ "min"
  /\ ((now - t) / 60000 <= -1)%Z
  /\ JS.startsWith (Kanban.timeAgo now getTime (Some d)) "-" = true.
Proof.
  intros Hd Ht Hfut. rewrite (timeAgo_unfold now getTime d t Hd Ht).
  assert (Hneg : ((now - t) / 60000 <= -1)%Z).
  { pose proof (Z.div_mod (now - t) 60000 ltac:(lia)).
    pose proof (Z.mod_pos_bound (now - t) 60000 ltac:(lia)). lia. }
  destruct (Z.ltb_spec ((now - t) / 60000) 60) as [_|]; [|lia].
  repeat split; [assumption|].
  unfold JS.toString.
  destruct (Z.ltb_spec ((now - t) / 60000) 0) as [_|]; [|lia].
  reflexivity.
Qed.

(** X12 for a lead dated two days ahead. *)
Lemma X12_timeAgo_witness :
  "2026-01-03" <> ""
  /\ (fun _ : string => Some 172800000%Z) "2026-01-03" = Some 172800000%Z
  /\ (0 < 172800000)%Z
  /\ Kanban.timeAgo 0 (fun _ => Some 172800000%Z) (Some "2026-01-03")
     = "-2880min".
Proof.
  split; [discriminate|]. split; [reflexivity|]. split; [lia|].
  rewrite (proj1 (X12_timeAgo_future 0 (fun _ => Some 172800000%Z)
                    "2026-01-03" 172800000 ltac:(discriminate) eq_refl
                    ltac:(lia))).
  reflexivity.
Defined.

(** X13.  The progress bar lights as many dots as the progress says, but
    never fewer than none nor more than four: the green dots are the
    first [min 4 (max 0 progress)] of the four. *)
Theorem X13_ProgressBar_dots (progress : Z) :
  Kanban.greenDots progress
  = firstn (Z.to_nat (Z.max 0 (Z.min 4 progress))) Kanban.dots
  /\ List.length (Kanban.greenDots progress)
     = Z.to_nat (Z.max 0 (Z.min 4 progress)).
Proof.
  unfold Kanban.greenDots, Kanban.dots. cbn [filter].
  destruct (Z.leb_spec 1 progress), (Z.leb_spec 2 progress),
    (Z.leb_spec 3 progress), (Z.leb_spec 4 progress); try lia.
  - replace (Z.to_nat (Z.max 0 (Z.min 4 progress))) with 4%nat by lia.
    split; reflexivity.
  - replace (Z.to_nat (Z.max 0 (Z.min 4 progress))) with 3%nat by lia.
    split; reflexivity.
  - replace (Z.to_nat (Z.max 0 (Z.min 4 progress))) with 2%nat by lia.
    split; reflexivity.
  - replace (Z.to_nat (Z.max 0 (Z.min 4 progress))) with 1%nat by lia.
    split; reflexivity.
  - replace (Z.to_nat (Z.max 0 (Z.min 4 progress))) with 0%nat by lia.
    split; reflexivity.
Qed.

(* ================================================================== *)
(** * Starting a search campaign *)
(* ================================================================== *)

Section StarterFacts.

Local Open Scope Z_scope.

Lemma starter_step_limit (st : CampaignStarter.State) (e : CampaignStarter.Event) :
  5 <= CampaignStarter.limite st <= 100 ->
  5 <= CampaignStarter.limite (CampaignStarter.step st e) <= 100.
Proof.
  destruct e; cbn [CampaignStarter.step CampaignStarter.limite
                   CampaignStarter.onChangeLimite]; lia.
Qed.

Lemma starter_fold_limit (events : list CampaignStarter.Event) :
  forall st : CampaignStarter.State,
    5 <= CampaignStarter.limite st <= 100 ->
    5 <= CampaignStarter.limite (fold_left CampaignStarter.step events st) <= 100.
Proof.
  induction events as [|e events IH]; intros st H; cbn [fold_left]; [exact H|].
  apply IH. now apply starter_step_limit.
Qed.

End StarterFacts.

(** X14.  Whatever the operator typed into the three fields and in
    whatever order, a campaign that [handleSubmit] starts has a niche and
    a city that are not empty and a limit between 5 and 100. *)
Theorem X14_CampaignStarter_request
    (events : list CampaignStarter.Event) (req : CampaignStarter.Request) :
  CampaignStarter.handleSubmit (CampaignStarter.run events) = Some req ->
  CampaignStarter.req_nicho req <> ""
  /\ CampaignStarter.req_cidade req <> ""
  /\ (5 <= CampaignStarter.req_limite req <= 100)%Z.
Proof.
  unfold CampaignStarter.handleSubmit, CampaignStarter.run.
  pose proof (starter_fold_limit events CampaignStarter.initial
                ltac:(cbn; lia)) as Hl.
  set (st := fold_left CampaignStarter.step events CampaignStarter.initial) in *.
  cbn [JS.truthy].
  destruct (String.eqb_spec (CampaignStarter.nicho st) "") as [|Hn];
    [discriminate|].
  destruct (String.eqb_spec (CampaignStarter.cidade st) "") as [|Hc];
    [discriminate|].
  cbn [negb orb]. intros [= <-]. cbn. auto.
Qed.

(** X14 for a search of 500 workshops in Sumare. *)
Lemma X14_CampaignStarter_witness :
  CampaignStarter.handleSubmit
    (CampaignStarter.run
       [CampaignStarter.ChangeNicho "oficina";
        CampaignStarter.ChangeLimite "500";
        CampaignStarter.ChangeCidade "Sumare, SP"])
  = Some (CampaignStarter.startCampaign "oficina" "Sumare, SP" 100)
  /\ (5 <= 100 <= 100)%Z.
Proof.
  split; [reflexivity|].
  exact (proj2 (proj2 (X14_CampaignStarter_request
           [CampaignStarter.ChangeNicho "oficina";
            CampaignStarter.ChangeLimite "500";
            CampaignStarter.ChangeCidade "Sumare, SP"]
           (CampaignStarter.startCampaign "oficina" "Sumare, SP" 100)
           eq_refl))).
Defined.

Section PollEndFacts.

Import AppContext.

(** A poll that arms the timer writes the campaign and nothing else. *)
Lemma poll_armed_keeps (r : ApiResponse CampaignProgress) (st st' : State) (ms : Z) :
  poll r st = (st', Some ms) ->
  isProspecting st' = isProspecting st
  /\ lastError st' = lastError st
  /\ refreshes st' = refreshes st.
Proof.
  unfold poll. destruct (data r) as [d|]; [|discriminate].
  destruct (String.eqb (status d) "completed"); [discriminate|].
  destruct (String.eqb (status d) "failed"); [discriminate|].
  intros [= <- _]. auto.
Qed.

(** The state in which the loop stops is the state that the stopping
    answer leaves, run on a state that differs from the first one in the
    campaign shown only. *)
Lemma pollLoop_final (before : list (ApiResponse CampaignProgress))
    (r : ApiResponse CampaignProgress) (after : list (ApiResponse CampaignProgress)) :
  forall st : State,
    Forall (fun a => forall st', snd (poll a st') <> None) before ->
    (forall st', snd (poll r st') = None) ->
    exists mid : State,
      isProspecting mid = isProspecting st
      /\ lastError mid = lastError st
      /\ refreshes mid = refreshes st
      /\ (before = [] -> mid = st)
      /\ fst (fst (pollLoop (before ++ r :: after) st)) = fst (poll r mid).
Proof.
  induction before as [|a before IH]; intros st H Hr.
  - exists st. repeat split; auto. cbn [app pollLoop].
    specialize (Hr st). destruct (poll r st) as [st' [ms|]]; [discriminate|].
    reflexivity.
  - inversion H as [|? ? Ha Hrest]; subst. specialize (Ha st).
    cbn [app pollLoop].
    destruct (poll a st) as [st' [ms|]] eqn:E; cbn [snd] in Ha; [|congruence].
    destruct (poll_armed_keeps a st st' ms E) as (K1 & K2 & K3).
    destruct (IH st' Hrest Hr) as (mid & M1 & M2 & M3 & _ & M5).
    exists mid. repeat split; try congruence; try discriminate.
    destruct (pollLoop (before ++ r :: after) st') as [[st'' n] armed].
    exact M5.
Qed.

End PollEndFacts.

(** X15.  When the first answer that ends the poll says completed, the
    provider stops prospecting, shows that answer and refreshes the leads
    once; when it says failed, it stops prospecting, refreshes nothing and
    sets an error that is never empty: the message of the answer, or
    "Erro na prospeccao". *)
Theorem X15_poll_end_state
    (before after : list (AppContext.ApiResponse AppContext.CampaignProgress))
    (d : AppContext.CampaignProgress) (st : AppContext.State) :
  Forall (fun a => forall st', snd (AppContext.poll a st') <> None) before ->
  let final := fst (fst (AppContext.pollLoop
                           (before ++ AppContext.mkResponse (Some d) None :: after)
                           st)) in
  (AppContext.status d = "completed" ->
   AppContext.isProspecting final = false
   /\ AppContext.currentCampaign final = Some d
   /\ AppContext.refreshes final = S (AppContext.refreshes st)
   /\ AppContext.lastError final = AppContext.lastError st)
  /\ (AppContext.status d = "failed" ->
      AppContext.isProspecting final = false
      /\ AppContext.currentCampaign final = Some d
      /\ AppContext.refreshes final = AppContext.refreshes st
      /\ exists message, AppContext.lastError final = Some message
                         /\ message <> ""
                         /\ (AppContext.mensagem d = Some message
                             \/ message = "Erro na prospeccao")).
Proof.
  intros Hb final. subst final. split; intros Hs.
  - destruct (pollLoop_final before (AppContext.mkResponse (Some d) None) after
                st Hb) as (mid & M1 & M2 & M3 & _ & M5).
    { intros st'. rewrite poll_timer. cbn. now rewrite Hs. }
    rewrite M5. unfold AppContext.poll. cbn [AppContext.data].
    rewrite Hs. cbn. auto.
  - destruct (pollLoop_final before (AppContext.mkResponse (Some d) None) after
                st Hb) as (mid & M1 & M2 & M3 & _ & M5).
    { intros st'. rewrite poll_timer. cbn. now rewrite Hs. }
    rewrite M5. unfold AppContext.poll. cbn [AppContext.data].
    rewrite Hs. cbn. repeat split; auto.
    exists (JS.or_string (AppContext.mensagem d) "Erro na prospeccao").
    split; [reflexivity|]. unfold JS.or_string.
    destruct (AppContext.mensagem d) as [m|]; [|split; [discriminate|auto]].
    destruct (String.eqb_spec m "") as [->|Hm]; split; auto; discriminate.
Qed.

(** X15 on a campaign that runs twice and then completes. *)
Lemma X15_poll_end_witness :
  let d := AppContext.mkProgress 7 "completed" 100 20 12 None in
  Forall (fun a => forall st', snd (AppContext.poll a st') <> None)
    [AppContext.answer "running"; AppContext.answer "running"]
  /\ AppContext.status d = "completed"
  /\ AppContext.refreshes
       (fst (fst (AppContext.pollLoop
                    ([AppContext.answer "running"; AppContext.answer "running"]
                       ++ AppContext.mkResponse (Some d) None :: [])
                    AppContext.started))) = 1%nat.
Proof.
  cbv zeta.
  assert (H : Forall (fun a => forall st', snd (AppContext.poll a st') <> None)
                [AppContext.answer "running"; AppContext.answer "running"]).
  { repeat constructor; intros st'; discriminate. }
  split; [exact H|]. split; [reflexivity|].
  exact (proj1 (proj2 (proj2 (proj1 (X15_poll_end_state
           [AppContext.answer "running"; AppContext.answer "running"] []
           (AppContext.mkProgress 7 "completed" 100 20 12 None)
           AppContext.started H) eq_refl)))).
Defined.

(** X16.  When a status request brings no data, [startCampaign] stops
    asking and leaves the provider as it was: still prospecting, with no
    error set, no refresh made and no timer armed, so nothing will end the
    search. *)
Theorem X16_poll_stuck_without_data
    (start : AppContext.ApiResponse AppContext.StartResponse)
    (job : AppContext.StartResponse)
    (before after : list (AppContext.ApiResponse AppContext.CampaignProgress))
    (failure : option string) (st : AppContext.State) :
  JS.truthy (AppContext.error start) = false ->
  AppContext.data start = Some job ->
  Forall (fun a => forall st', snd (AppContext.poll a st') <> None) before ->
  exists final requests,
    AppContext.startCampaign start
      (before ++ AppContext.mkResponse None failure :: after) st
    = Some (final, requests, false)
    /\ requests = S (List.length before)
    /\ AppContext.isProspecting final = true
    /\ AppContext.lastError final = AppContext.lastError st
    /\ AppContext.refreshes final = AppContext.refreshes st.
Proof.
  intros He Hd Hb. unfold AppContext.startCampaign. rewrite He, Hd.
  set (r := AppContext.mkResponse None failure).
  assert (Hr : forall st', snd (AppContext.poll r st') = None) by reflexivity.
  destruct (pollLoop_final before r after (AppContext.begin st) Hb Hr)
    as (mid & M1 & M2 & M3 & _ & M5).
  destruct (pollLoop_stops before r after (AppContext.begin st) Hb Hr)
    as [Hn Hs].
  destruct (AppContext.pollLoop (before ++ r :: after) (AppContext.begin st))
    as [[final n] armed].
  cbn [fst snd] in *. subst n armed.
  exists final, (S (List.length before)).
  change (fst (AppContext.poll r mid)) with mid in M5. subst final.
  repeat split; auto.
Qed.

(** X16 on a search whose second status request fails. *)
Lemma X16_poll_stuck_witness :
  let start := AppContext.mkResponse (Some (AppContext.mkStart 7 "running")) None in
  JS.truthy (AppContext.error start) = false
  /\ AppContext.data start = Some (AppContext.mkStart 7 "running")
  /\ Forall (fun a => forall st', snd (AppContext.poll a st') <> None)
       [AppContext.answer "running"]
  /\ exists final requests,
       AppContext.startCampaign start
         ([AppContext.answer "running"]
            ++ AppContext.mkResponse None (Some "Network error") :: [])
         AppContext.started
       = Some (final, requests, false)
       /\ requests = 2%nat
       /\ AppContext.isProspecting final = true
       /\ AppContext.lastError final = None
       /\ AppContext.refreshes final = 0%nat.
Proof.
  cbv zeta.
  assert (H : Forall (fun a => forall st', snd (AppContext.poll a st') <> None)
                [AppContext.answer "running"]).
  { repeat constructor; intros st'; discriminate. }
  split; [reflexivity|]. split; [reflexivity|]. split; [exact H|].
  exact (X16_poll_stuck_without_data
           (AppContext.mkResponse (Some (AppContext.mkStart 7 "running")) None)
           (AppContext.mkStart 7 "running")
           [AppContext.answer "running"] [] (Some "Network error")
           AppContext.started eq_refl eq_refl H).
Defined.

(* ================================================================== *)
(** * The events of a call *)
(* ================================================================== *)

Section CallFacts.

Import VapiConnection.

(** No event but call-started makes a call out of none. *)
Lemma handleEvent_none (e : VapiEvent) :
  type e <> "call-started" -> handleEvent e None = None.
Proof.
  intros H. unfold handleEvent.
  destruct (String.eqb_spec (type e) "call-started"); [contradiction|].
  destruct (String.eqb (type e) "transcript");
    [now destruct (transcript e)|].
  destruct (String.eqb (type e) "status-update"); [reflexivity|].
  now destruct (String.eqb (type e) "call-ended").
Qed.

(** An event other than call-started keeps the call and who it is with,
    adds its line if it is a transcript event, and does not wake an ended
    call. *)
Lemma handleEvent_some (e : VapiEvent) (c : ActiveCall) :
  type e <> "call-started" ->
  exists c',
    handleEvent e (Some c) = Some c'
    /\ callId c' = callId c /\ leadId c' = leadId c
    /\ leadName c' = leadName c /\ phoneNumber c' = phoneNumber c
    /\ lines c' = (lines c ++ spoken [e])%list
    /\ (isActive c = false -> isActive c' = false).
Proof.
  intros H. unfold handleEvent. cbn [spoken].
  destruct (String.eqb_spec (type e) "call-started"); [contradiction|].
  destruct (String.eqb (type e) "transcript") eqn:T.
  - destruct (transcript e) as [line|]; eexists; (split; [reflexivity|]);
      cbn; rewrite ?app_nil_r; auto 10.
  - destruct (String.eqb (type e) "status-update");
      [eexists; split; [reflexivity|]; cbn; rewrite ?app_nil_r; auto 10|].
    destruct (String.eqb (type e) "call-ended");
      eexists; (split; [reflexivity|]); cbn; rewrite ?app_nil_r; auto 10.
Qed.

Lemma spoken_cons (e : VapiEvent) (events : list VapiEvent) :
  spoken (e :: events) = (spoken [e] ++ spoken events)%list.
Proof.
  cbn [spoken]. destruct (String.eqb (type e) "transcript");
    [destruct (transcript e)|]; reflexivity.
Qed.

Lemma handleEvents_some (events : list VapiEvent) :
  forall c : ActiveCall,
    Forall (fun e => type e <> "call-started") events ->
    exists c',
      handleEvents events (Some c) = Some c'
      /\ callId c' = callId c /\ leadId c' = leadId c
      /\ leadName c' = leadName c /\ phoneNumber c' = phoneNumber c
      /\ lines c' = (lines c ++ spoken events)%list
      /\ (isActive c = false -> isActive c' = false).
Proof.
  induction events as [|e events IH]; intros c H.
  - exists c. cbn. rewrite app_nil_r. auto 10.
  - inversion H as [|? ? He Hrest]; subst.
    destruct (handleEvent_some e c He) as (c1 & E1 & A1 & B1 & C1 & D1 & L1 & I1).
    destruct (IH c1 Hrest) as (c2 & E2 & A2 & B2 & C2 & D2 & L2 & I2).
    exists c2. unfold handleEvents in *. cbn [fold_left]. rewrite E1.
    split; [exact E2|].
    rewrite spoken_cons, app_assoc, <- L1.
    repeat split; try congruence. auto.
Qed.

Lemma handleEvents_none (events : list VapiEvent) :
  Forall (fun e => type e <> "call-started") events ->
  handleEvents events None = None.
Proof.
  induction events as [|e events IH]; intros H; [reflexivity|].
  inversion H as [|? ? He Hrest]; subst.
  unfold handleEvents in *. cbn [fold_left].
  rewrite (handleEvent_none e He). now apply IH.
Qed.

End CallFacts.

(** X17.  Only a call-started event brings up the live call card: while
    the card is hidden, because there is no call or because the call has
    ended, no run of other events shows it, and without a call no run of
    other events makes one. *)
Theorem X17_card_needs_call_started
    (events : list VapiConnection.VapiEvent)
    (prev : option VapiConnection.ActiveCall) :
  Forall (fun e => VapiConnection.type e <> "call-started") events ->
  VapiConnection.cardShown prev = false ->
  VapiConnection.cardShown (VapiConnection.handleEvents events prev) = false
  /\ (prev = None -> VapiConnection.handleEvents events prev = None).
Proof.
  intros H Hp. destruct prev as [c|].
  - destruct (handleEvents_some events c H) as (c' & E & _ & _ & _ & _ & _ & I).
    rewrite E. split; [|discriminate]. cbn in *. auto.
  - rewrite (handleEvents_none events H). split; auto.
Qed.

(** X17 on the events that follow the end of a call. *)
Lemma X17_card_witness :
  let ended := VapiConnection.mkCall false (Some "c1") None "Ana" "5511" "ok" [] 30 in
  let events :=
    [VapiConnection.mkEvent "transcript" None None None None None
       (Some (VapiConnection.mkLine "user" "alo")) None;
     VapiConnection.mkEvent "status-update" None None None None
       (Some "Encerrando") None None] in
  Forall (fun e => VapiConnection.type e <> "call-started") events
  /\ VapiConnection.cardShown (Some ended) = false
  /\ VapiConnection.cardShown
       (VapiConnection.handleEvents events (Some ended)) = false.
Proof.
  cbv zeta.
  assert (H : Forall (fun e => VapiConnection.type e <> "call-started")
    [VapiConnection.mkEvent "transcript" None None None None None
       (Some (VapiConnection.mkLine "user" "alo")) None;
     VapiConnection.mkEvent "status-update" None None None None
       (Some "Encerrando") None None]).
  { repeat constructor; discriminate. }
  split; [exact H|]. split; [reflexivity|].
  exact (proj1 (X17_card_needs_call_started _
           (Some (VapiConnection.mkCall false (Some "c1") None "Ana" "5511" "ok" [] 30))
           H eq_refl)).
Defined.

(** X18.  After a call-started event the call is the one that event
    names, whatever call was shown before, and its transcript holds the
    lines of the transcript events that followed, all of them and in the
    order of arrival. *)
Theorem X18_transcript_in_order
    (start : VapiConnection.VapiEvent)
    (events : list VapiConnection.VapiEvent)
    (prev : option VapiConnection.ActiveCall) :
  VapiConnection.type start = "call-started" ->
  Forall (fun e => VapiConnection.type e <> "call-started") events ->
  exists call,
    VapiConnection.handleEvents (start :: events) prev = Some call
    /\ VapiConnection.lines call = VapiConnection.spoken events
    /\ VapiConnection.callId call
       = VapiConnection.or_null (VapiConnection.call_id start)
    /\ VapiConnection.leadName call
       = JS.or_string (VapiConnection.lead_name start) "Lead"
    /\ VapiConnection.phoneNumber call
       = JS.or_string (VapiConnection.phone_number start) "".
Proof.
  intros Hs H. unfold VapiConnection.handleEvents. cbn [fold_left].
  unfold VapiConnection.handleEvent at 2. rewrite Hs. cbn [String.eqb Ascii.eqb Bool.eqb].
  match goal with
  | |- context [fold_left _ events (Some ?c)] =>
      destruct (handleEvents_some events c H)
        as (c' & E & A & _ & C & D & L & _)
  end.
  exists c'. unfold VapiConnection.handleEvents in E. rewrite E.
  repeat split; assumption.
Qed.

(** X18 on a call with two lines and a status update between them. *)
Lemma X18_transcript_witness :
  let start := VapiConnection.mkEvent "call-started" (Some "c9") (Some "42")
                 (Some "Bruno") (Some "5511977776666") None None None in
  let l1 := VapiConnection.mkLine "assistant" "Ola, aqui e o Alex" in
  let l2 := VapiConnection.mkLine "user" "Pode falar" in
  let events :=
    [VapiConnection.mkEvent "transcript" None None None None None (Some l1) None;
     VapiConnection.mkEvent "status-update" None None None None (Some "Em conversa") None None;
     VapiConnection.mkEvent "transcript" None None None None None (Some l2) None] in
  VapiConnection.type start = "call-started"
  /\ Forall (fun e => VapiConnection.type e <> "call-started") events
  /\ exists call,
       VapiConnection.handleEvents (start :: events) None = Some call
       /\ VapiConnection.lines call = [l1; l2].
Proof.
  cbv zeta.
  assert (H : Forall (fun e => VapiConnection.type e <> "call-started")
    [VapiConnection.mkEvent "transcript" None None None None None
       (Some (VapiConnection.mkLine "assistant" "Ola, aqui e o Alex")) None;
     VapiConnection.mkEvent "status-update" None None None None (Some "Em conversa") None None;
     VapiConnection.mkEvent "transcript" None None None None None
       (Some (VapiConnection.mkLine "user" "Pode falar")) None]).
  { repeat constructor; discriminate. }
  split; [reflexivity|]. split; [exact H|].
  destruct (X18_transcript_in_order
              (VapiConnection.mkEvent "call-started" (Some "c9") (Some "42")
                 (Some "Bruno") (Some "5511977776666") None None None)
              _ None eq_refl H) as (call & E & L & _).
  exists call. split; [exact E|exact L].
Defined.

(* ================================================================== *)
(** * What the pages ask of the server *)
(* ================================================================== *)

(** X19.  Each tab of the pipeline page asks for the first status of its
    entry in [STATUS_MAP] only, so the statuses that come second there
    (contato_site, follow_up, proposta, fechado) are requested by no tab:
    leads in those statuses are never listed. *)
Theorem X19_loadLeads_first_status_only
    (tab other : Pipeline.UIStatus) (status : string) :
  In status (tl (Pipeline.STATUS_MAP tab)) ->
  Pipeline.q_status (Pipeline.loadLeads tab)
  = hd_error (Pipeline.STATUS_MAP tab)
  /\ Pipeline.q_status (Pipeline.loadLeads other) <> Some status.
Proof.
  intros H. split; [reflexivity|].
  destruct tab; cbn in H; destruct H as [<-|[]];
    destruct other; cbn; discriminate.
Qed.

(** X19 for the status follow_up of the tab contatado. *)
Lemma X19_loadLeads_witness :
  In "follow_up" (tl (Pipeline.STATUS_MAP Pipeline.contatado))
  /\ Pipeline.q_status (Pipeline.loadLeads Pipeline.contatado) <> Some "follow_up".
Proof.
  assert (H : In "follow_up" (tl (Pipeline.STATUS_MAP Pipeline.contatado)))
    by (cbn; auto).
  split; [exact H|].
  exact (proj2 (X19_loadLeads_first_status_only Pipeline.contatado
                  Pipeline.contatado "follow_up" H)).
Defined.

Section FormFacts.


Lemma spanDigits_all (s : string) :
  JS.allDigits s = true -> JS.spanDigits s = (s, "").
Proof.
  induction s as [|c s IH]; [reflexivity|].
  cbn [JS.allDigits JS.spanDigits]. intros H.
  apply andb_true_iff in H as [Hc Hs]. now rewrite Hc, (IH Hs).
Qed.

(** [parseInt] of a text that starts with a digit and goes on with one, if
    it goes on: no white space, no sign and no radix prefix to take
    off. *)
Lemma parseInt_digit_head (c : ascii) (s : string) :
  JS.isDigit c = true ->
  match s with String d _ => JS.isDigit d = true | EmptyString => True end ->
  JS.parseInt (String c s)
  = let (ds, _) := JS.spanDigits (String c s) in
    match ds with
    | EmptyString => None
    | _ => Some (1 * JS.decimalValue 0 ds)%Z
    end.
Proof.
  intros Hc Hs.
  destruct c as [[] [] [] [] [] [] [] []]; try discriminate Hc; try reflexivity.
  destruct s as [|d s]; [reflexivity|].
  destruct d as [[] [] [] [] [] [] [] []]; try discriminate Hs; reflexivity.
Qed.

(** [parseInt] reads a run of digits as its value. *)
Lemma parseInt_digits (s : string) :
  JS.allDigits s = true -> s <> "" ->
  JS.parseInt s = Some (JS.decimalValue 0 s).
Proof.
  intros Hd Hne. destruct s as [|c s]; [congruence|].
  pose proof Hd as Hd'. cbn [JS.allDigits] in Hd'.
  apply andb_true_iff in Hd' as [Hc Hs].
  rewrite parseInt_digit_head; [|exact Hc|].
  - rewrite (spanDigits_all _ Hd). f_equal. lia.
  - destruct s as [|d s]; [exact I|].
    cbn [JS.allDigits] in Hs. now apply andb_true_iff in Hs as [Hd2 _].
Qed.

Lemma toString_not_empty (n : Z) : JS.toString n <> "".
Proof.
  unfold JS.toString. destruct (n <? 0)%Z; [discriminate|].
  cbn [JS.digitsOf]. destruct (n <? 10)%Z.
  - discriminate.
  - destruct (JS.digitsOf _ _); discriminate.
Qed.

(** The text of a number that is not negative is read back by
    [parseInt]. *)
Lemma parseInt_toString (n : Z) :
  (0 <= n)%Z -> JS.parseInt (JS.toString n) = Some n.
Proof.
  intros Hn. destruct (toString_nonneg n Hn) as [Hd Hv].
  rewrite (parseInt_digits _ Hd (toString_not_empty n)). now rewrite Hv.
Qed.

End FormFacts.



(** X21.  From the delay field of ReactivationCampaign.tsx to the form of
    [api.sendReactivation]: whatever the operator did, the field
    [delay_seconds] of the form is a decimal text that [parseInt] reads
    back as the delay of the component, a number between 30 and 120, and
    the form has one entry per lead of the preview. *)
Theorem X21_reactivation_form_delay
    (events : list ReactivationCampaign.Event) (req : ReactivationCampaign.Request) :
  ReactivationCampaign.handleSendCampaign (ReactivationCampaign.run events)
  = Some req ->
  let form := Api.sendReactivation
                (map ReactivationCampaign.asLead (ReactivationCampaign.leads req))
                (ReactivationCampaign.template req)
                (ReactivationCampaign.delay req) in
  JS.parseInt (Api.r_delay_seconds form) = Some (ReactivationCampaign.delay req)
  /\ (30 <= ReactivationCampaign.delay req <= 120)%Z
  /\ map Api.m_phone (Api.r_leads form)
     = map ReactivationCampaign.phone (ReactivationCampaign.leads req).
Proof.
  intros H. pose proof (reactivation_send_delay_bounds events req H) as Hb.
  cbv zeta. unfold Api.sendReactivation. cbn [Api.r_delay_seconds Api.r_leads].
  split; [apply parseInt_toString; lia|]. split; [exact Hb|].
  rewrite !map_map. reflexivity.
Qed.

(** X21 after the operator has typed 7 and then 300 into the delay
    field. *)
Lemma X21_reactivation_form_witness :
  let lead := ReactivationCampaign.mkLead "Ana" "5511988887777" "vender" None None in
  let data := ReactivationCampaign.mkPreview 1 [lead] [lead] "Oi [NAME]" in
  let events := [ReactivationCampaign.FileLoaded data;
                 ReactivationCampaign.ChangeDelay "7";
                 ReactivationCampaign.ChangeDelay "300"] in
  ReactivationCampaign.handleSendCampaign (ReactivationCampaign.run events)
  = Some (ReactivationCampaign.sendReactivation [lead] "Oi [NAME]" 120)
  /\ JS.parseInt
       (Api.r_delay_seconds
          (Api.sendReactivation (map ReactivationCampaign.asLead [lead])
             "Oi [NAME]" 120)) = Some 120%Z.
Proof.
  cbv zeta. split; [reflexivity|].
  exact (proj1 (X21_reactivation_form_delay
           [ReactivationCampaign.FileLoaded
              (ReactivationCampaign.mkPreview 1
                 [ReactivationCampaign.mkLead "Ana" "5511988887777" "vender" None None]
                 [ReactivationCampaign.mkLead "Ana" "5511988887777" "vender" None None]
                 "Oi [NAME]");
            ReactivationCampaign.ChangeDelay "7";
            ReactivationCampaign.ChangeDelay "300"]
           (ReactivationCampaign.sendReactivation
              [ReactivationCampaign.mkLead "Ana" "5511988887777" "vender" None None]
              "Oi [NAME]" 120)
           eq_refl)).
Defined.

Section UploadFacts.

Lemma toLowerCase_app (a b : string) :
  JS.toLowerCase (a ++ b) = JS.toLowerCase a ++ JS.toLowerCase b.
Proof. induction a as [|c a IH]; cbn [append JS.toLowerCase]; [|rewrite IH]; reflexivity. Qed.

Lemma toLowerCase_length (s : string) :
  String.length (JS.toLowerCase s) = String.length s.
Proof. induction s as [|c s IH]; cbn [JS.toLowerCase String.length]; auto. Qed.

Lemma toLowerCase_drop (n : nat) (s : string) :
  JS.toLowerCase (JS.drop n s) = JS.drop n (JS.toLowerCase s).
Proof.
  revert s; induction n as [|n IH]; intros s; [reflexivity|].
  destruct s as [|c s]; [reflexivity|]. cbn [JS.drop JS.toLowerCase]. apply IH.
Qed.

Lemma endsWith_app (x p : string) : JS.endsWith (x ++ p) p = true.
Proof.
  unfold JS.endsWith. rewrite string_length_app.
  replace (String.length x + String.length p - String.length p)%nat
    with (String.length x) by lia.
  rewrite drop_app, String.eqb_refl, andb_true_r.
  apply Nat.leb_le. lia.
Qed.

Lemma endsWith_inv (s p : string) :
  JS.endsWith s p = true ->
  JS.drop (String.length s - String.length p) s = p.
Proof.
  unfold JS.endsWith. intros H. apply andb_true_iff in H as [_ H].
  now apply String.eqb_eq in H.
Qed.

End UploadFacts.

(** X22.  [handleFileUpload] of ReactivationCampaign.tsx sends a file to
    the preview exactly when its name ends in .csv, .xlsx or .xls written
    in any mix of upper and lower case; every other file is turned down
    with a message and without a request. *)
Theorem X22_handleFileUpload_extension (fileName : string) :
  (ReactivationCampaign.handleFileUpload fileName
   = ReactivationCampaign.Previewed fileName
   <-> exists stem ext,
         fileName = stem ++ ext
         /\ In (JS.toLowerCase ext) ReactivationCampaign.validExtensions)
  /\ (ReactivationCampaign.handleFileUpload fileName
      = ReactivationCampaign.Previewed fileName
      \/ ReactivationCampaign.handleFileUpload fileName
         = ReactivationCampaign.Rejected
             "Por favor, selecione um arquivo CSV ou Excel (.xlsx)").
Proof.
  unfold ReactivationCampaign.handleFileUpload.
  destruct (ReactivationCampaign.hasValidExtension fileName) eqn:E; cbn [negb].
  - split; [|auto]. split; [intros _|reflexivity].
    unfold ReactivationCampaign.hasValidExtension in E.
    apply existsb_exists in E as (ext & Hin & He).
    exists (JS.take (String.length fileName - String.length ext) fileName),
           (JS.drop (String.length fileName - String.length ext) fileName).
    split; [now rewrite take_drop|].
    apply endsWith_inv in He. rewrite toLowerCase_length in He.
    now rewrite toLowerCase_drop, He.
  - split; [|auto]. split; [discriminate|].
    intros (stem & ext & -> & Hin). exfalso.
    unfold ReactivationCampaign.hasValidExtension in E.
    assert (existsb (fun e => JS.endsWith (JS.toLowerCase (stem ++ ext)) e)
              ReactivationCampaign.validExtensions = true); [|congruence].
    apply existsb_exists. exists (JS.toLowerCase ext). split; [exact Hin|].
    rewrite toLowerCase_app. apply endsWith_app.
Qed.

(** X22 for a spreadsheet saved with capital letters. *)
Lemma X22_handleFileUpload_witness :
  ReactivationCampaign.handleFileUpload "Leads 2026.XLSX"
  = ReactivationCampaign.Previewed "Leads 2026.XLSX".
Proof.
  apply (proj2 (proj1 (X22_handleFileUpload_extension "Leads 2026.XLSX"))).
  exists "Leads 2026", ".XLSX". split; [reflexivity|]. cbn. auto.
Defined.

(* ================================================================== *)
(** * The tables that hang on a lead *)
(* ================================================================== *)

Section SchemaFacts.

Import SchemaV3.

Lemma hasLead_app (id : nat) (db : Database) (extra : list LeadRow)
    (ints : list IntelligenceRow) (xs : list InteractionRow) (n : nat) :
  hasLead id db = true ->
  hasLead id (mkDatabase (leads db ++ extra) ints xs n) = true.
Proof.
  unfold hasLead. cbn [leads]. rewrite existsb_app. now intros ->.
Qed.

Lemma hasLead_filter (id gone : nat) (db : Database)
    (ints : list IntelligenceRow) (xs : list InteractionRow) (n : nat) :
  hasLead id db = true -> id <> gone ->
  hasLead id
    (mkDatabase (filter (fun l => negb (Nat.eqb (l_id l) gone)) (leads db))
       ints xs n) = true.
Proof.
  unfold hasLead. cbn [leads]. intros H Hne.
  apply existsb_exists in H as (l & Hin & Hl).
  apply existsb_exists. exists l. split; [|exact Hl].
  apply filter_In. split; [exact Hin|].
  apply Nat.eqb_eq in Hl. apply negb_true_iff, Nat.eqb_neq. lia.
Qed.

Lemma NoDup_snoc {A : Type} (l : list A) (x : A) :
  NoDup l -> ~ In x l -> NoDup (l ++ [x]).
Proof.
  intros Hl Hx. induction Hl as [|y l Hy Hl IH]; cbn.
  - constructor; [auto|constructor].
  - constructor.
    + rewrite in_app_iff. cbn. intros [H|[H|[]]]; [auto|].
      subst. apply Hx. now left.
    + apply IH. intros H. apply Hx. now right.
Qed.

Lemma map_filter_lead (gone : nat) (ints : list IntelligenceRow) :
  map i_lead_id (filter (fun i => negb (Nat.eqb (i_lead_id i) gone)) ints)
  = filter (fun id => negb (Nat.eqb id gone)) (map i_lead_id ints).
Proof.
  induction ints as [|i ints IH]; [reflexivity|].
  cbn [filter map]. destruct (negb (Nat.eqb (i_lead_id i) gone)); cbn [map];
    now rewrite IH.
Qed.

Lemma exec_consistent (s : Statement) (db db' : Database) :
  consistent db -> exec s db = Some db' -> consistent db'.
Proof.
  intros (Hi & Hx & Hu) E. destruct s as [nome st|lead script|lead t|gone];
    cbn [exec] in E.
  - destruct nome as [nome|]; [|discriminate]. injection E as <-.
    split; [|split]; cbn [lead_intelligence interactions].
    + intros i Hin. now apply hasLead_app, Hi.
    + intros x Hin. now apply hasLead_app, Hx.
    + exact Hu.
  - destruct lead as [lead|]; [|discriminate].
    destruct (hasLead lead db) eqn:HL; cbn [negb] in E; [|discriminate].
    destruct (existsb (fun i => Nat.eqb (i_lead_id i) lead) (lead_intelligence db))
      eqn:EX; [discriminate|].
    injection E as <-.
    split; [|split]; cbn [lead_intelligence interactions].
    + intros i Hin. apply in_app_or in Hin as [Hin|[<-|[]]].
      * exact (Hi i Hin).
      * exact HL.
    + intros x Hin. exact (Hx x Hin).
    + rewrite map_app. cbn [map]. apply NoDup_snoc; [exact Hu|].
      intros Hin. apply in_map_iff in Hin as (i & Heq & Hin).
      assert (existsb (fun i => Nat.eqb (i_lead_id i) lead) (lead_intelligence db)
              = true); [|congruence].
      apply existsb_exists. exists i. split; [exact Hin|].
      now apply Nat.eqb_eq.
  - destruct lead as [lead|]; [|discriminate].
    destruct t as [t|]; [|discriminate].
    destruct (hasLead lead db) eqn:HL; cbn [negb] in E; [|discriminate].
    injection E as <-.
    split; [|split]; cbn [lead_intelligence interactions].
    + intros i Hin. exact (Hi i Hin).
    + intros x Hin. apply in_app_or in Hin as [Hin|[<-|[]]].
      * exact (Hx x Hin).
      * exact HL.
    + exact Hu.
  - injection E as <-.
    split; [|split]; cbn [lead_intelligence interactions].
    + intros i Hin. apply filter_In in Hin as [Hin Hne].
      apply hasLead_filter; [now apply Hi|].
      apply negb_true_iff, Nat.eqb_neq in Hne. exact Hne.
    + intros x Hin. apply filter_In in Hin as [Hin Hne].
      apply hasLead_filter; [now apply Hx|].
      apply negb_true_iff, Nat.eqb_neq in Hne. exact Hne.
    + rewrite map_filter_lead. now apply NoDup_filter.
Qed.

Lemma run_consistent (statements : list Statement) :
  forall db, consistent db -> consistent (run statements db).
Proof.
  induction statements as [|s statements IH]; intros db H; [exact H|].
  unfold run in *. cbn [fold_left].
  destruct (exec s db) as [db'|] eqn:E; apply IH; [|exact H].
  now apply (exec_consistent s db db').
Qed.

Lemma empty_consistent : consistent empty.
Proof. repeat split; cbn; try contradiction. constructor. Qed.

(** Deleting a lead takes its rows with it. *)
Lemma delete_cascades (gone : nat) (db db' : Database) :
  exec (DeleteLead gone) db = Some db' ->
  hasLead gone db' = false
  /\ (forall i, In i (lead_intelligence db') -> i_lead_id i <> gone)
  /\ (forall x, In x (interactions db') -> x_lead_id x <> gone).
Proof.
  cbn [exec]. intros [= <-]. repeat split.
  - unfold hasLead. cbn [leads].
    destruct (existsb _ _) eqn:E; [|reflexivity].
    apply existsb_exists in E as (l & Hin & Hl).
    apply filter_In in Hin as [_ Hne]. now rewrite Hl in Hne.
  - intros i Hin. cbn [lead_intelligence] in Hin.
    apply filter_In in Hin as [_ Hne].
    now apply negb_true_iff, Nat.eqb_neq in Hne.
  - intros x Hin. cbn [interactions] in Hin.
    apply filter_In in Hin as [_ Hne].
    now apply negb_true_iff, Nat.eqb_neq in Hne.
Qed.

End SchemaFacts.

(** X23.  On the tables of schema_v3.sql no run of inserts and deletes,
    accepted or rejected, leaves a row of lead_intelligence or of
    interactions whose lead is gone: the foreign keys with ON DELETE
    CASCADE keep every row attached to a lead. *)
Theorem X23_schema_rows_have_their_lead (statements : list SchemaV3.Statement) :
  let db := SchemaV3.run statements SchemaV3.empty in
  (forall i, In i (SchemaV3.lead_intelligence db) ->
             SchemaV3.hasLead (SchemaV3.i_lead_id i) db = true)
  /\ (forall x, In x (SchemaV3.interactions db) ->
                SchemaV3.hasLead (SchemaV3.x_lead_id x) db = true).
Proof.
  cbv zeta.
  destruct (run_consistent statements SchemaV3.empty empty_consistent)
    as (Hi & Hx & _).
  split; assumption.
Qed.

(** X24.  On the tables of schema_v3.sql a lead never has two rows of
    lead_intelligence, whatever is inserted and deleted: a second insert
    for the same lead is rejected, and after the lead is deleted none of
    its rows is left. *)
Theorem X24_schema_one_intelligence_per_lead
    (statements : list SchemaV3.Statement) (gone : nat) :
  let db := SchemaV3.run statements SchemaV3.empty in
  NoDup (map SchemaV3.i_lead_id (SchemaV3.lead_intelligence db))
  /\ (forall lead script,
        SchemaV3.hasLead lead db = false
        \/ In lead (map SchemaV3.i_lead_id (SchemaV3.lead_intelligence db)) ->
        SchemaV3.exec (SchemaV3.InsertIntelligence (Some lead) script) db = None)
  /\ (forall db', SchemaV3.exec (SchemaV3.DeleteLead gone) db = Some db' ->
        SchemaV3.hasLead gone db' = false
        /\ ~ In gone (map SchemaV3.i_lead_id (SchemaV3.lead_intelligence db'))).
Proof.
  cbv zeta.
  destruct (run_consistent statements SchemaV3.empty empty_consistent)
    as (_ & _ & Hu).
  split; [exact Hu|]. split.
  - intros lead script [H|H]; cbn [SchemaV3.exec]; [now rewrite H|].
    destruct (SchemaV3.hasLead lead _); cbn [negb]; [|reflexivity].
    apply in_map_iff in H as (i & Heq & Hin).
    assert (E : existsb (fun i => Nat.eqb (SchemaV3.i_lead_id i) lead)
                  (SchemaV3.lead_intelligence
                     (SchemaV3.run statements SchemaV3.empty)) = true).
    { apply existsb_exists. exists i. split; [exact Hin|]. now apply Nat.eqb_eq. }
    now rewrite E.
  - intros db' E. destruct (delete_cascades gone _ db' E) as (H1 & H2 & _).
    split; [exact H1|].
    intros Hin. apply in_map_iff in Hin as (i & Heq & Hin).
    now apply (H2 i Hin).
Qed.

(** X24 on a lead that gets its intelligence and a second attempt. *)
Lemma X24_schema_witness :
  let statements :=
    [SchemaV3.InsertLead (Some "Acme") None;
     SchemaV3.InsertIntelligence (Some 1%nat) (Some "pitch");
     SchemaV3.InsertIntelligence (Some 1%nat) (Some "outro pitch")] in
  let db := SchemaV3.run statements SchemaV3.empty in
  In 1%nat (map SchemaV3.i_lead_id (SchemaV3.lead_intelligence db))
  /\ List.length (SchemaV3.lead_intelligence db) = 1%nat
  /\ SchemaV3.exec (SchemaV3.InsertIntelligence (Some 1%nat) None) db = None.
Proof.
  cbv zeta.
  assert (H : In 1%nat (map SchemaV3.i_lead_id (SchemaV3.lead_intelligence
                (SchemaV3.run
                   [SchemaV3.InsertLead (Some "Acme") None;
                    SchemaV3.InsertIntelligence (Some 1%nat) (Some "pitch");
                    SchemaV3.InsertIntelligence (Some 1%nat) (Some "outro pitch")]
                   SchemaV3.empty)))) by (cbn; auto).
  split; [exact H|]. split; [reflexivity|].
  exact (proj1 (proj2 (X24_schema_one_intelligence_per_lead
           [SchemaV3.InsertLead (Some "Acme") None;
            SchemaV3.InsertIntelligence (Some 1%nat) (Some "pitch");
            SchemaV3.InsertIntelligence (Some 1%nat) (Some "outro pitch")] 0))
         1%nat None (or_intror H)).
Defined.
